(** * TinyHook: Python syscall hooks for QEMU linux-user

    A shallow embedding of [linux-user/tinyhook.c] and [tinyhook.h]:
    the hook registry, the memory bridge, the runtime lifecycle and the
    pre/post dispatch protocol, followed by the properties of the
    specification stated and settled against that embedding.

    Conventions.
    - C integers are [Z] with the conversion written out at every cast.
      The host is LP64: [int] has 32 bits, [long], [long long] and
      [Py_ssize_t] have 64.  [abi_long] has [TARGET_ABI_BITS] bits, 32 or
      64 depending on the emulated target.
    - A [PyObject *] that may be [NULL] is an [option PyObject].  A C-API
      call that fails returns [None] and leaves the exception in the
      error indicator [py_err] of the interpreter state, as CPython does.
    - The static variables of tinyhook.c are fields of [World], next to
      the part of the process they act on (interpreter, host memory,
      standard error).
    - Host memory is a total map from host addresses to bytes; what the
      process does on an access that faults is not described.
    - Calls that can fail for reasons outside tinyhook.c fail as the
      host environment of [tinyhook_init] says; a [bytes] object is
      created when the allocator of the state ([py_alloc]) grants the
      request; creating an [int] always succeeds.
    - The process can end inside a call: [PyErr_Print] exits when the
      pending exception is SystemExit.  [exit_status] of the state is
      then the status the process ended with, and the call did not
      return: the value paired with such a state is what the C function
      had computed so far, which no caller ever sees. *)

From Stdlib Require Import ZArith Lia Strings.Byte.
From stdpp Require Import base list strings pretty numbers.

Open Scope Z_scope.

(** ** C integer types *)

Module CInt.

Definition wrap_unsigned (bits x : Z) : Z := x mod 2 ^ bits.

Definition wrap_signed (bits x : Z) : Z :=
  (x + 2 ^ (bits - 1)) mod 2 ^ bits - 2 ^ (bits - 1).

Definition INT_MIN : Z := - 2 ^ 31.
Definition INT_MAX : Z := 2 ^ 31 - 1.
Definition LONG_MIN : Z := - 2 ^ 63.
Definition LONG_MAX : Z := 2 ^ 63 - 1.
Definition LLONG_MIN : Z := - 2 ^ 63.
Definition LLONG_MAX : Z := 2 ^ 63 - 1.
Definition PY_SSIZE_T_MIN : Z := - 2 ^ 63.
Definition PY_SSIZE_T_MAX : Z := 2 ^ 63 - 1.

Definition in_range (lo hi x : Z) : bool := (lo <=? x) && (x <=? hi).

End CInt.

(** The emulated target fixes the width of [abi_long] (TARGET_ABI_BITS in
    QEMU's cpu headers, which tinyhook.h includes). *)
Inductive TargetABI := ABI32 | ABI64.

Definition TARGET_ABI_BITS (abi : TargetABI) : Z :=
  match abi with ABI32 => 32 | ABI64 => 64 end.

(** [(abi_long) x] for [x : long long]. *)
Definition to_abi_long (abi : TargetABI) (x : Z) : Z :=
  CInt.wrap_signed (TARGET_ABI_BITS abi) x.

Definition is_abi_long (abi : TargetABI) (x : Z) : Prop :=
  - 2 ^ (TARGET_ABI_BITS abi - 1) <= x < 2 ^ (TARGET_ABI_BITS abi - 1).

(** ** Python values *)

(** The values scripts exchange with tinyhook.  A [str] is its sequence
    of code points; [PyFunction] stands for any callable, named by an
    identifier the interpreter resolves. *)
#[warnings="-register-all"]
Inductive PyObject :=
| PyNone
| PyBool (b : bool)
| PyLong (z : Z)
| PyUnicode (cps : list Z)
| PyBytes (bs : list byte)
| PyTuple (items : list PyObject)
| PyList (items : list PyObject)
| PyDict (entries : list (PyObject * PyObject))
| PyFunction (id : nat)
| PyModule (name : string).

Inductive PyExcType :=
| PyExc_TypeError
| PyExc_ValueError
| PyExc_MemoryError
| PyExc_OverflowError
| PyExc_UnicodeDecodeError
| PyExc_KeyError
| PyExc_ImportError
| PyExc_RuntimeError
| PyExc_SystemExit (code : Z).

Record PyErr := mkPyErr { exc_type : PyExcType; exc_msg : string }.

(** [bool] is a subclass of [int]: [PyLong_Check] accepts both. *)
Definition PyLong_Check (o : PyObject) : bool :=
  match o with PyLong _ | PyBool _ => true | _ => false end.

Definition PyTuple_Check (o : PyObject) : bool :=
  match o with PyTuple _ => true | _ => false end.

Definition PyDict_Check (o : PyObject) : bool :=
  match o with PyDict _ => true | _ => false end.

Definition PyCallable_Check (o : PyObject) : bool :=
  match o with PyFunction _ => true | _ => false end.

(** The mathematical value of an [int] object. *)
Definition long_value (o : PyObject) : option Z :=
  match o with
  | PyLong z => Some z
  | PyBool b => Some (if b then 1 else 0)
  | _ => None
  end.

Definition PyTuple_Size (o : PyObject) : Z :=
  match o with PyTuple items => Z.of_nat (length items) | _ => -1 end.

Definition PyTuple_GetItem (o : PyObject) (i : nat) : option PyObject :=
  match o with PyTuple items => items !! i | _ => None end.

(** Code points of a C string literal of the source (all are ASCII). *)
Definition str_cps (s : string) : list Z :=
  (fun a => Z.of_N (Ascii.N_of_ascii a)) <$> String.list_ascii_of_string s.

Definition PyUnicode_FromLiteral (s : string) : PyObject := PyUnicode (str_cps s).

(** [PyDict_GetItemString]: the value stored under the [str] key, or
    [NULL].  Only a [str] with the same code points compares equal. *)
Fixpoint dict_get_str (entries : list (PyObject * PyObject)) (key : list Z)
  : option PyObject :=
  match entries with
  | [] => None
  | (PyUnicode k, v) :: rest =>
      if decide (k = key) then Some v else dict_get_str rest key
  | _ :: rest => dict_get_str rest key
  end.

Definition PyDict_GetItemString (o : PyObject) (key : string) : option PyObject :=
  match o with
  | PyDict entries => dict_get_str entries (str_cps key)
  | _ => None
  end.

(** ** Interpreter and process state *)

(** The hook tables: Python dicts whose keys are the [int] objects made
    by [PyLong_FromLong] from a C [int].  Kept as an association list in
    insertion order, so that "one entry per key" is a property to prove
    and not one of the representation. *)
Definition HookDict : Type := list (Z * PyObject).

(** What [tinyhook_shutdown] gives back. *)
Inductive Resource := RPreHooks | RPostHooks | RModule | RInterpreter.

Record World := mkWorld {
  (* static variables of tinyhook.c *)
  g_tinyhook_enabled : bool;
  g_module : option PyObject;
  g_pre_syscall_hooks : option HookDict;
  g_post_syscall_hooks : option HookDict;
  (* embedded interpreter *)
  py_initialized : bool;
  py_err : option PyErr;
  py_sys_path : list PyObject;
  (* host process *)
  host_mem : Z -> byte;
  stderr : list string;
  released : list Resource;
  (* whether the object allocator grants a request of that many bytes *)
  py_alloc : Z -> bool;
  (* [Some s] once the process has ended, with status [s] *)
  exit_status : option Z
}.

Definition set_enabled (b : bool) (w : World) : World :=
  mkWorld b (g_module w) (g_pre_syscall_hooks w) (g_post_syscall_hooks w)
    (py_initialized w) (py_err w) (py_sys_path w) (host_mem w) (stderr w)
    (released w) (py_alloc w) (exit_status w).

Definition set_module (m : option PyObject) (w : World) : World :=
  mkWorld (g_tinyhook_enabled w) m (g_pre_syscall_hooks w)
    (g_post_syscall_hooks w) (py_initialized w) (py_err w) (py_sys_path w)
    (host_mem w) (stderr w) (released w) (py_alloc w) (exit_status w).

Definition set_pre_hooks (d : option HookDict) (w : World) : World :=
  mkWorld (g_tinyhook_enabled w) (g_module w) d (g_post_syscall_hooks w)
    (py_initialized w) (py_err w) (py_sys_path w) (host_mem w) (stderr w)
    (released w) (py_alloc w) (exit_status w).

Definition set_post_hooks (d : option HookDict) (w : World) : World :=
  mkWorld (g_tinyhook_enabled w) (g_module w) (g_pre_syscall_hooks w) d
    (py_initialized w) (py_err w) (py_sys_path w) (host_mem w) (stderr w)
    (released w) (py_alloc w) (exit_status w).

Definition set_initialized (b : bool) (w : World) : World :=
  mkWorld (g_tinyhook_enabled w) (g_module w) (g_pre_syscall_hooks w)
    (g_post_syscall_hooks w) b (py_err w) (py_sys_path w) (host_mem w)
    (stderr w) (released w) (py_alloc w) (exit_status w).

Definition set_py_err (e : option PyErr) (w : World) : World :=
  mkWorld (g_tinyhook_enabled w) (g_module w) (g_pre_syscall_hooks w)
    (g_post_syscall_hooks w) (py_initialized w) e (py_sys_path w)
    (host_mem w) (stderr w) (released w) (py_alloc w) (exit_status w).

Definition set_sys_path (p : list PyObject) (w : World) : World :=
  mkWorld (g_tinyhook_enabled w) (g_module w) (g_pre_syscall_hooks w)
    (g_post_syscall_hooks w) (py_initialized w) (py_err w) p (host_mem w)
    (stderr w) (released w) (py_alloc w) (exit_status w).

Definition set_host_mem (m : Z -> byte) (w : World) : World :=
  mkWorld (g_tinyhook_enabled w) (g_module w) (g_pre_syscall_hooks w)
    (g_post_syscall_hooks w) (py_initialized w) (py_err w) (py_sys_path w)
    m (stderr w) (released w) (py_alloc w) (exit_status w).

Definition set_stderr (l : list string) (w : World) : World :=
  mkWorld (g_tinyhook_enabled w) (g_module w) (g_pre_syscall_hooks w)
    (g_post_syscall_hooks w) (py_initialized w) (py_err w) (py_sys_path w)
    (host_mem w) l (released w) (py_alloc w) (exit_status w).

Definition set_released (l : list Resource) (w : World) : World :=
  mkWorld (g_tinyhook_enabled w) (g_module w) (g_pre_syscall_hooks w)
    (g_post_syscall_hooks w) (py_initialized w) (py_err w) (py_sys_path w)
    (host_mem w) (stderr w) l (py_alloc w) (exit_status w).

Definition set_py_alloc (f : Z -> bool) (w : World) : World :=
  mkWorld (g_tinyhook_enabled w) (g_module w) (g_pre_syscall_hooks w)
    (g_post_syscall_hooks w) (py_initialized w) (py_err w) (py_sys_path w)
    (host_mem w) (stderr w) (released w) f (exit_status w).

Definition set_exit_status (s : option Z) (w : World) : World :=
  mkWorld (g_tinyhook_enabled w) (g_module w) (g_pre_syscall_hooks w)
    (g_post_syscall_hooks w) (py_initialized w) (py_err w) (py_sys_path w)
    (host_mem w) (stderr w) (released w) (py_alloc w) s.

(** The state of the process before [tinyhook_init] runs; its allocator
    grants every request. *)
Definition initial_world (mem : Z -> byte) : World :=
  mkWorld false None None None false None [] mem [] [] (fun _ => true) None.

(** [fprintf(stderr, ...)] with the message already formatted: standard
    error is the list of the lines written, the newline that ends each
    format of the source being implied. *)
Definition fprintf_stderr (msg : string) (w : World) : World :=
  set_stderr (stderr w ++ [msg]) w.

(** *** The error indicator *)

Definition PyErr_SetString (ty : PyExcType) (msg : string) (w : World) : World :=
  set_py_err (Some (mkPyErr ty msg)) w.

Definition PyErr_Clear (w : World) : World := set_py_err None w.

Definition exc_name (ty : PyExcType) : string :=
  match ty with
  | PyExc_TypeError => "TypeError"
  | PyExc_ValueError => "ValueError"
  | PyExc_MemoryError => "MemoryError"
  | PyExc_OverflowError => "OverflowError"
  | PyExc_UnicodeDecodeError => "UnicodeDecodeError"
  | PyExc_KeyError => "KeyError"
  | PyExc_ImportError => "ImportError"
  | PyExc_RuntimeError => "RuntimeError"
  | PyExc_SystemExit _ => "SystemExit"
  end.

Definition Py_IsInitialized (w : World) : bool := py_initialized w.

Definition Py_Finalize (w : World) : World :=
  set_released (released w ++ [RInterpreter])
    (set_sys_path [] (set_py_err None (set_initialized false w))).

(** [Py_Exit]: finalizes the interpreter if it is initialized and ends
    the process with the given status.  It does not return. *)
Definition Py_Exit (sts : Z) (w : World) : World :=
  set_exit_status (Some sts) (if Py_IsInitialized w then Py_Finalize w else w).

(** The status [PyErr_Print] would end the process with: the code of a
    pending SystemExit. *)
Definition system_exit_code (w : World) : option Z :=
  match py_err w with
  | Some e =>
      match exc_type e with
      | PyExc_SystemExit code => Some code
      | _ => None
      end
  | None => None
  end.

(** [PyErr_Print]: when the pending exception is SystemExit, prints no
    traceback and calls [Py_Exit] with the code of the exception.
    Otherwise it writes the pending exception to standard error (its
    last line is kept, the traceback above it is not modelled) and clears
    the indicator; it does nothing when no exception is pending. *)
Definition PyErr_Print (w : World) : World :=
  match py_err w with
  | Some e =>
      match exc_type e with
      | PyExc_SystemExit code => Py_Exit code w
      | _ =>
          PyErr_Clear
            (fprintf_stderr (exc_name (exc_type e) +:+ ": " +:+ exc_msg e) w)
      end
  | None => w
  end.

(** *** Integer conversions of the C API *)

Definition PyLong_FromLong (v : Z) : option PyObject := Some (PyLong v).

(** [PyLong_AsLong] and [PyLong_AsLongLong]: on overflow they return -1
    and set OverflowError.  Neither caller in tinyhook.c looks at the
    indicator afterwards. *)
Definition PyLong_AsLong (o : PyObject) (w : World) : Z * World :=
  match long_value o with
  | Some z =>
      if CInt.in_range CInt.LONG_MIN CInt.LONG_MAX z then (z, w)
      else (-1, PyErr_SetString PyExc_OverflowError
                  "Python int too large to convert to C long" w)
  | None => (-1, PyErr_SetString PyExc_TypeError "an integer is required" w)
  end.

Definition PyLong_AsLongLong (o : PyObject) (w : World) : Z * World :=
  match long_value o with
  | Some z =>
      if CInt.in_range CInt.LLONG_MIN CInt.LLONG_MAX z then (z, w)
      else (-1, PyErr_SetString PyExc_OverflowError
                  "Python int too large to convert to C long long" w)
  | None => (-1, PyErr_SetString PyExc_TypeError "an integer is required" w)
  end.

(** *** Argument parsing: the format units tinyhook.c uses *)

(** ["i"]: a C [int], range checked. *)
Definition conv_i (o : PyObject) : PyErr + Z :=
  match long_value o with
  | None => inl (mkPyErr PyExc_TypeError "an integer is required")
  | Some z =>
      if z >? CInt.INT_MAX then
        inl (mkPyErr PyExc_OverflowError "signed integer is greater than maximum")
      else if z <? CInt.INT_MIN then
        inl (mkPyErr PyExc_OverflowError "signed integer is less than minimum")
      else inr z
  end.

(** ["K"]: an [unsigned long long] taken modulo 2^64, no overflow check. *)
Definition conv_K (o : PyObject) : PyErr + Z :=
  match long_value o with
  | None => inl (mkPyErr PyExc_TypeError "int expected")
  | Some z => inr (CInt.wrap_unsigned 64 z)
  end.

(** ["n"]: a [Py_ssize_t], range checked. *)
Definition conv_n (o : PyObject) : PyErr + Z :=
  match long_value o with
  | None => inl (mkPyErr PyExc_TypeError "an integer is required")
  | Some z =>
      if CInt.in_range CInt.PY_SSIZE_T_MIN CInt.PY_SSIZE_T_MAX z then inr z
      else inl (mkPyErr PyExc_OverflowError
                  "Python int too large to convert to C ssize_t")
  end.

(** ["y*"]: a bytes-like object as a [Py_buffer]. *)
Definition conv_ystar (o : PyObject) : PyErr + list byte :=
  match o with
  | PyBytes bs => inr bs
  | _ => inl (mkPyErr PyExc_TypeError "a bytes-like object is required")
  end.

Definition arity_error : PyErr :=
  mkPyErr PyExc_TypeError "function takes a different number of arguments".

Definition PyArg_ParseTuple_i (args : list PyObject) : PyErr + Z :=
  match args with
  | [a] => conv_i a
  | _ => inl arity_error
  end.

Definition PyArg_ParseTuple_iO (args : list PyObject) : PyErr + (Z * PyObject) :=
  match args with
  | [a; cb] => match conv_i a with inl e => inl e | inr n => inr (n, cb) end
  | _ => inl arity_error
  end.

Definition PyArg_ParseTuple_K (args : list PyObject) : PyErr + Z :=
  match args with
  | [a] => conv_K a
  | _ => inl arity_error
  end.

Definition PyArg_ParseTuple_Kn (args : list PyObject) : PyErr + (Z * Z) :=
  match args with
  | [a; s] =>
      match conv_K a with
      | inl e => inl e
      | inr addr => match conv_n s with inl e => inl e | inr size => inr (addr, size) end
      end
  | _ => inl arity_error
  end.

Definition PyArg_ParseTuple_Kystar (args : list PyObject) : PyErr + (Z * list byte) :=
  match args with
  | [a; d] =>
      match conv_K a with
      | inl e => inl e
      | inr addr => match conv_ystar d with inl e => inl e | inr buf => inr (addr, buf) end
      end
  | _ => inl arity_error
  end.

(** A failed parse leaves its exception pending. *)
Definition raise (e : PyErr) (w : World) : World := set_py_err (Some e) w.

(** *** Text and bytes objects *)

Definition byte_val (b : byte) : Z := Z.of_N (Byte.to_N b).

Definition is_cont (c : Z) : bool := (0x80 <=? c) && (c <=? 0xBF).

(** Strict UTF-8 decoding, as [PyUnicode_FromStringAndSize] does it:
    shortest form only, no surrogates, nothing above U+10FFFF; [None]
    when the bytes are not valid UTF-8. *)
Fixpoint utf8_decode (bs : list byte) : option (list Z) :=
  match bs with
  | [] => Some []
  | b0 :: r0 =>
      let c0 := byte_val b0 in
      if c0 <? 0x80 then cons c0 <$> utf8_decode r0
      else if (0xC2 <=? c0) && (c0 <=? 0xDF) then
        match r0 with
        | b1 :: r1 =>
            let c1 := byte_val b1 in
            if is_cont c1
            then cons ((c0 - 0xC0) * 64 + (c1 - 0x80)) <$> utf8_decode r1
            else None
        | _ => None
        end
      else if (0xE0 <=? c0) && (c0 <=? 0xEF) then
        match r0 with
        | b1 :: b2 :: r2 =>
            let c1 := byte_val b1 in
            let c2 := byte_val b2 in
            let cp := (c0 - 0xE0) * 4096 + (c1 - 0x80) * 64 + (c2 - 0x80) in
            if is_cont c1 && is_cont c2 && (0x800 <=? cp)
               && negb ((0xD800 <=? cp) && (cp <=? 0xDFFF))
            then cons cp <$> utf8_decode r2
            else None
        | _ => None
        end
      else if (0xF0 <=? c0) && (c0 <=? 0xF4) then
        match r0 with
        | b1 :: b2 :: b3 :: r3 =>
            let c1 := byte_val b1 in
            let c2 := byte_val b2 in
            let c3 := byte_val b3 in
            let cp := (c0 - 0xF0) * 262144 + (c1 - 0x80) * 4096
                      + (c2 - 0x80) * 64 + (c3 - 0x80) in
            if is_cont c1 && is_cont c2 && is_cont c3
               && (0x10000 <=? cp) && (cp <=? 0x10FFFF)
            then cons cp <$> utf8_decode r3
            else None
        | _ => None
        end
      else None
  end.

(** [size] bytes of host memory starting at [p]. *)
Definition read_bytes (mem : Z -> byte) (p : Z) (size : Z) : list byte :=
  (fun i => mem (p + Z.of_nat i)) <$> seq 0 (Z.to_nat size).

Definition store (mem : Z -> byte) (p : Z) (b : byte) : Z -> byte :=
  fun a => if decide (a = p) then b else mem a.

(** [memcpy(p, buf, len(buf))] into host memory. *)
Fixpoint memcpy (mem : Z -> byte) (p : Z) (buf : list byte) : Z -> byte :=
  match buf with
  | [] => mem
  | b :: rest => memcpy (store mem p b) (p + 1) rest
  end.

(** Size of a [bytes] object without its data: the four header words
    and the terminating byte. *)
Definition PyBytesObject_SIZE : Z := 33.

(** [PyErr_NoMemory]: MemoryError with no message. *)
Definition PyErr_NoMemory (w : World) : World :=
  PyErr_SetString PyExc_MemoryError EmptyString w.

(** [PyBytes_FromStringAndSize]: the empty object and the one-byte
    objects exist once and for all; otherwise the size must leave room
    for the header (OverflowError) and the object must be allocated
    (MemoryError) before the bytes are copied. *)
Definition PyBytes_FromStringAndSize (mem : Z -> byte) (p size : Z) (w : World)
  : option PyObject * World :=
  if size <? 0 then
    (None, PyErr_SetString PyExc_RuntimeError
             "Negative size passed to PyBytes_FromStringAndSize" w)
  else if (size =? 0) || (size =? 1)
  then (Some (PyBytes (read_bytes mem p size)), w)
  else if size >? CInt.PY_SSIZE_T_MAX - PyBytesObject_SIZE then
    (None, PyErr_SetString PyExc_OverflowError "byte string is too large" w)
  else if py_alloc w (PyBytesObject_SIZE + size)
  then (Some (PyBytes (read_bytes mem p size)), w)
  else (None, PyErr_NoMemory w).

Definition PyUnicode_FromStringAndSize (mem : Z -> byte) (p size : Z) (w : World)
  : option PyObject * World :=
  match utf8_decode (read_bytes mem p size) with
  | Some cps => (Some (PyUnicode cps), w)
  | None =>
      (None, PyErr_SetString PyExc_UnicodeDecodeError
               "'utf-8' codec can't decode bytes" w)
  end.

(** ** Hook registry *)

Inductive HookKind := PreHook | PostHook.

Definition hook_table (k : HookKind) (w : World) : option HookDict :=
  match k with
  | PreHook => g_pre_syscall_hooks w
  | PostHook => g_post_syscall_hooks w
  end.

Definition set_hook_table (k : HookKind) (d : option HookDict) (w : World) : World :=
  match k with
  | PreHook => set_pre_hooks d w
  | PostHook => set_post_hooks d w
  end.

Fixpoint hooks_get (d : HookDict) (key : Z) : option PyObject :=
  match d with
  | [] => None
  | (k, v) :: rest => if decide (k = key) then Some v else hooks_get rest key
  end.

(** Assignment to a key that is present overwrites its value in place; a
    new key goes to the end. *)
Fixpoint hooks_set (d : HookDict) (key : Z) (v : PyObject) : HookDict :=
  match d with
  | [] => [(key, v)]
  | (k, v') :: rest =>
      if decide (k = key) then (key, v) :: rest
      else (k, v') :: hooks_set rest key v
  end.

Fixpoint hooks_del (d : HookDict) (key : Z) : HookDict :=
  match d with
  | [] => []
  | (k, v) :: rest =>
      if decide (k = key) then rest else (k, v) :: hooks_del rest key
  end.

(** Number of entries stored under [key]. *)
Fixpoint hooks_count (d : HookDict) (key : Z) : nat :=
  match d with
  | [] => O
  | (k, _) :: rest =>
      if decide (k = key) then S (hooks_count rest key) else hooks_count rest key
  end.

(** [PyDict_GetItem]: a borrowed reference or [NULL]; never raises. *)
Definition PyDict_GetItem (d : HookDict) (key : PyObject) : option PyObject :=
  match long_value key with
  | Some k => hooks_get d k
  | None => None
  end.

(** [PyDict_SetItem] on one of the two tables: 0 on success, -1 with an
    exception when the table pointer is not a dict. *)
Definition PyDict_SetItem (kind : HookKind) (key v : PyObject) (w : World)
  : Z * World :=
  match hook_table kind w, long_value key with
  | Some d, Some k => (0, set_hook_table kind (Some (hooks_set d k v)) w)
  | _, _ => (-1, PyErr_SetString PyExc_RuntimeError "bad argument to internal function" w)
  end.

(** [PyDict_DelItem]: -1 with KeyError when the key is absent. *)
Definition PyDict_DelItem (kind : HookKind) (key : PyObject) (w : World)
  : Z * World :=
  match hook_table kind w, long_value key with
  | Some d, Some k =>
      match hooks_get d k with
      | Some _ => (0, set_hook_table kind (Some (hooks_del d k)) w)
      | None => (-1, PyErr_SetString PyExc_KeyError (pretty k) w)
      end
  | _, _ => (-1, PyErr_SetString PyExc_RuntimeError "bad argument to internal function" w)
  end.

(** [py_register_pre_hook] and [py_register_post_hook] differ only in the
    table they assign to. *)
Definition py_register_hook (kind : HookKind) (args : list PyObject) (w : World)
  : option PyObject * World :=
  match PyArg_ParseTuple_iO args with
  | inl e => (None, raise e w)
  | inr (syscall_num, callback) =>
      if negb (PyCallable_Check callback) then
        (None, PyErr_SetString PyExc_TypeError "callback must be callable" w)
      else
        match PyLong_FromLong syscall_num with
        | None => (None, w)
        | Some key =>
            let '(rc, w1) := PyDict_SetItem kind key callback w in
            if rc <? 0 then (None, w1) else (Some PyNone, w1)
        end
  end.

Definition py_register_post_hook := py_register_hook PostHook.

(** [py_unregister_pre_hook] and [py_unregister_post_hook]. *)
Definition py_unregister_hook (kind : HookKind) (args : list PyObject) (w : World)
  : option PyObject * World :=
  match PyArg_ParseTuple_i args with
  | inl e => (None, raise e w)
  | inr syscall_num =>
      match PyLong_FromLong syscall_num with
      | None => (None, w)
      | Some key =>
          let '(_, w1) := PyDict_DelItem kind key w in
          (Some PyNone, PyErr_Clear w1) (* Ignore KeyError if not found *)
      end
  end.

Definition py_unregister_pre_hook := py_unregister_hook PreHook.
Definition py_unregister_post_hook := py_unregister_hook PostHook.

(** The registry as the dispatch engine reads it. *)
Definition lookup (kind : HookKind) (num : Z) (w : World) : option PyObject :=
  match hook_table kind w with
  | Some d => hooks_get d num
  | None => None
  end.

(** ** tinyhook.h *)

Inductive TinyHookAction := TINYHOOK_CONTINUE | TINYHOOK_SKIP.

Record TinyHookResult := mkResult {
  action : TinyHookAction;
  args : list Z;            (* abi_long args[8] *)
  ret : Z
}.

(** The eight [abi_long] arguments of a syscall. *)
Record SyscallArgs := mkArgs {
  arg1 : Z; arg2 : Z; arg3 : Z; arg4 : Z;
  arg5 : Z; arg6 : Z; arg7 : Z; arg8 : Z
}.

Definition args_list (a : SyscallArgs) : list Z :=
  [arg1 a; arg2 a; arg3 a; arg4 a; arg5 a; arg6 a; arg7 a; arg8 a].

(* Constants exposed to Python *)
Definition TINYHOOK_ACTION_CONTINUE : Z := 0.
Definition TINYHOOK_ACTION_SKIP : Z := 1.

Definition set_action (x : TinyHookAction) (r : TinyHookResult) : TinyHookResult :=
  mkResult x (args r) (ret r).

Definition set_arg (i : nat) (v : Z) (r : TinyHookResult) : TinyHookResult :=
  mkResult (action r) (<[i := v]> (args r)) (ret r).

Definition set_ret (v : Z) (r : TinyHookResult) : TinyHookResult :=
  mkResult (action r) (args r) v.

(** What the host gives [tinyhook_init]: the outcome of each call that
    can fail for reasons outside tinyhook.c. *)
Record HostEnv := mkEnv {
  env_inittab : Z;                       (* PyImport_AppendInittab: 0 or -1 *)
  env_py_starts : bool;                  (* Py_Initialize brings the runtime up *)
  env_pre_dict : bool;                   (* first PyDict_New succeeds *)
  env_post_dict : bool;                  (* second PyDict_New succeeds *)
  env_import : bool;                     (* importing "tinyhook" succeeds *)
  env_fopen : string -> string + list byte  (* strerror(errno), or the file *)
}.

Section Runtime.

(** The emulated target. *)
Variable abi : TargetABI.

(** Address-space collaborators of linux-user that tinyhook.c calls and
    does not define: the translation of a guest address to a host
    pointer ([None] is [NULL]) and the checked length of a guest string
    (negative on a fault).  Both take an [abi_ptr]. *)
Variable g2h_untagged : Z -> option Z.
Variable target_strlen : (Z -> byte) -> Z -> Z.

(** The interpreter: calling a Python object on positional arguments,
    and running the file [PyRun_FileEx] is given.  [None] is [NULL],
    with the exception left in the error indicator of the new state. *)
Variable PyObject_Call : PyObject -> list PyObject -> World -> option PyObject * World.
Variable PyRun_File : list byte -> World -> option PyObject * World.

(** glib's directory part of a path. *)
Variable g_path_get_dirname : string -> string.

Definition to_abi_ptr (addr : Z) : Z :=
  CInt.wrap_unsigned (TARGET_ABI_BITS abi) addr.

(** *** Memory bridge *)

Definition py_read_memory (py_args : list PyObject) (w : World)
  : option PyObject * World :=
  match PyArg_ParseTuple_Kn py_args with
  | inl e => (None, raise e w)
  | inr (addr, size) =>
      if size <=? 0 then
        (None, PyErr_SetString PyExc_ValueError "size must be positive" w)
      else
        match g2h_untagged (to_abi_ptr addr) with
        | None =>
            (None, PyErr_SetString PyExc_MemoryError "invalid guest address" w)
        | Some host_ptr =>
            PyBytes_FromStringAndSize (host_mem w) host_ptr size w
        end
  end.

Definition py_write_memory (py_args : list PyObject) (w : World)
  : option PyObject * World :=
  match PyArg_ParseTuple_Kystar py_args with
  | inl e => (None, raise e w)
  | inr (addr, buffer) =>
      match g2h_untagged (to_abi_ptr addr) with
      | None =>
          (None, PyErr_SetString PyExc_MemoryError "invalid guest address" w)
      | Some host_ptr =>
          (Some PyNone, set_host_mem (memcpy (host_mem w) host_ptr buffer) w)
      end
  end.

Definition py_read_string (py_args : list PyObject) (w : World)
  : option PyObject * World :=
  match PyArg_ParseTuple_K py_args with
  | inl e => (None, raise e w)
  | inr addr =>
      match g2h_untagged (to_abi_ptr addr) with
      | None =>
          (None, PyErr_SetString PyExc_MemoryError "invalid guest address" w)
      | Some host_ptr =>
          (* Safely get the string length *)
          let len := target_strlen (host_mem w) (to_abi_ptr addr) in
          if len <? 0 then
            (None, PyErr_SetString PyExc_MemoryError "invalid string address" w)
          else PyUnicode_FromStringAndSize (host_mem w) host_ptr len w
      end
  end.

(** *** Runtime lifecycle *)

Definition Py_Initialize (env : HostEnv) (w : World) : World :=
  if env_py_starts env then set_initialized true w else w.

(** [Py_XDECREF] of one of the references tinyhook.c owns: nothing on
    [NULL], otherwise the reference is given back. *)
Definition Py_XDECREF {A} (r : Resource) (p : option A) (w : World) : World :=
  match p with
  | Some _ => set_released (released w ++ [r]) w
  | None => w
  end.

Definition PyDict_New (ok : bool) (w : World) : option HookDict * World :=
  if ok then (Some [], w)
  else (None, PyErr_SetString PyExc_MemoryError "out of memory" w).

Definition PyImport_ImportModule (env : HostEnv) (name : string) (w : World)
  : option PyObject * World :=
  if env_import env then (Some (PyModule name), w)
  else (None, PyErr_SetString PyExc_ImportError name w).

Definition PyUnicode_FromString (s : string) (w : World) : option PyObject * World :=
  match utf8_decode (Ascii.byte_of_ascii <$> String.list_ascii_of_string s) with
  | Some cps => (Some (PyUnicode cps), w)
  | None =>
      (None, PyErr_SetString PyExc_UnicodeDecodeError
               "'utf-8' codec can't decode bytes" w)
  end.

Definition tinyhook_shutdown (w : World) : World :=
  if g_tinyhook_enabled w then
    let w := Py_XDECREF RPreHooks (g_pre_syscall_hooks w) w in
    let w := Py_XDECREF RPostHooks (g_post_syscall_hooks w) w in
    let w := Py_XDECREF RModule (g_module w) w in
    let w := set_pre_hooks None w in
    let w := set_post_hooks None w in
    let w := set_module None w in
    let w := set_enabled false w in
    if Py_IsInitialized w then Py_Finalize w else w
  else w.

Definition tinyhook_enabled (w : World) : bool := g_tinyhook_enabled w.

Definition tinyhook_init (env : HostEnv) (script_path : string) (w : World)
  : Z * World :=
  (* Register the tinyhook module before Py_Initialize *)
  if env_inittab env =? -1 then
    (-1, fprintf_stderr "tinyhook: failed to register module" w)
  else
  let w := Py_Initialize env w in
  if negb (Py_IsInitialized w) then
    (-1, fprintf_stderr "tinyhook: failed to initialize Python" w)
  else
  (* Create the hook dictionaries *)
  let '(pre, w) := PyDict_New (env_pre_dict env) w in
  let w := set_pre_hooks pre w in
  let '(post, w) := PyDict_New (env_post_dict env) w in
  let w := set_post_hooks post w in
  if negb (bool_decide (is_Some (g_pre_syscall_hooks w)))
     || negb (bool_decide (is_Some (g_post_syscall_hooks w))) then
    let w := fprintf_stderr "tinyhook: failed to create hook dictionaries" w in
    (-1, tinyhook_shutdown w)
  else
  (* Import the tinyhook module so it's available *)
  let '(m, w) := PyImport_ImportModule env "tinyhook" w in
  let w := set_module m w in
  match g_module w with
  | None =>
      let w := fprintf_stderr "tinyhook: failed to import tinyhook module" w in
      (* PyErr_Print does not return on SystemExit *)
      match system_exit_code w with
      | Some _ => (-1, PyErr_Print w)
      | None =>
          let w := PyErr_Print w in
          (-1, tinyhook_shutdown w)
      end
  | Some _ =>
  (* Add the script's directory to sys.path *)
  let script_dir := g_path_get_dirname script_path in
  let w :=
    match PyUnicode_FromString script_dir w with
    | (Some dir_obj, w) => set_sys_path (dir_obj :: py_sys_path w) w
    | (None, w) => w
    end in
  (* Execute the user's script *)
  match env_fopen env script_path with
  | inl err =>
      let w := fprintf_stderr
                 ("tinyhook: failed to open script '" +:+ script_path
                  +:+ "': " +:+ err) w in
      (-1, tinyhook_shutdown w)
  | inr fp =>
      let '(result, w) := PyRun_File fp w in
      match result with
      | None =>
          let w := fprintf_stderr
                     ("tinyhook: error executing script '" +:+ script_path
                      +:+ "':") w in
          (* PyErr_Print does not return on SystemExit *)
          match system_exit_code w with
          | Some _ => (-1, PyErr_Print w)
          | None =>
              let w := PyErr_Print w in
              (-1, tinyhook_shutdown w)
          end
      | Some _ =>
          let w := set_enabled true w in
          (0, fprintf_stderr
                ("tinyhook: loaded script '" +:+ script_path +:+ "'") w)
      end
  end
  end.

(** *** Dispatch engine *)

(** [PyObject_CallFunction(callback, "iLLL...", num, (long long)a, ...)]:
    every C integer becomes a Python [int] of the same value. *)
Definition PyObject_CallFunction (callback : PyObject) (num : Z) (vals : list Z)
  (w : World) : option PyObject * World :=
  PyObject_Call callback (PyLong num :: (PyLong <$> vals)) w.

(* Check for "action" key *)
Definition parse_action (py_result : PyObject) (rw : TinyHookResult * World)
  : TinyHookResult * World :=
  let '(result, w) := rw in
  match PyDict_GetItemString py_result "action" with
  | Some act =>
      if PyLong_Check act then
        let '(action_val, w) := PyLong_AsLong act w in
        if action_val =? TINYHOOK_ACTION_SKIP
        then (set_action TINYHOOK_SKIP result, w)
        else (result, w)
      else (result, w)
  | None => (result, w)
  end.

(** The body of the loop over the tuple stored under "args". *)
Definition parse_arg (tuple : PyObject) (rw : TinyHookResult * World) (i : nat)
  : TinyHookResult * World :=
  let '(result, w) := rw in
  match PyTuple_GetItem tuple i with
  | Some item =>
      if PyLong_Check item then
        let '(v, w) := PyLong_AsLongLong item w in
        (set_arg i (to_abi_long abi v) result, w)
      else (result, w)
  | None => (result, w)
  end.

(* Check for "args" key *)
Definition parse_args (py_result : PyObject) (rw : TinyHookResult * World)
  : TinyHookResult * World :=
  match PyDict_GetItemString py_result "args" with
  | Some tuple =>
      if PyTuple_Check tuple && (PyTuple_Size tuple =? 8)
      then foldl (parse_arg tuple) rw (seq 0 8)
      else rw
  | None => rw
  end.

(* Check for "ret" key *)
Definition parse_ret (py_result : PyObject) (rw : TinyHookResult * World)
  : TinyHookResult * World :=
  let '(result, w) := rw in
  match PyDict_GetItemString py_result "ret" with
  | Some r =>
      if PyLong_Check r then
        let '(v, w) := PyLong_AsLongLong r w in
        (set_ret (to_abi_long abi v) result, w)
      else (result, w)
  | None => (result, w)
  end.

(* Parse the result *)
Definition parse_result (py_result : PyObject) (rw : TinyHookResult * World)
  : TinyHookResult * World :=
  if PyDict_Check py_result
  then parse_ret py_result (parse_args py_result (parse_action py_result rw))
  else rw.

(** Initialize result with defaults *)
Definition default_result (a : SyscallArgs) : TinyHookResult :=
  mkResult TINYHOOK_CONTINUE (args_list a) 0.

(** [tinyhook_pre_syscall]; [result] is what the caller's struct holds
    on entry, the second component what it holds on return. *)
Definition tinyhook_pre_syscall (num : Z) (a : SyscallArgs)
  (result : TinyHookResult) (w : World) : bool * TinyHookResult * World :=
  match g_tinyhook_enabled w, g_pre_syscall_hooks w with
  | true, Some hooks =>
      let result := default_result a in
      match PyLong_FromLong num with
      | None => (false, result, PyErr_Clear w)
      | Some key =>
          match PyDict_GetItem hooks key with
          | None => (false, result, w)
          | Some callback =>
              (* Call the Python callback *)
              match PyObject_CallFunction callback num (args_list a) w with
              | (None, w) =>
                  let w := fprintf_stderr
                             ("tinyhook: error in pre-syscall hook for syscall "
                              +:+ pretty num +:+ ":") w in
                  (* not reached when PyErr_Print ends the process *)
                  (false, result, PyErr_Print w)
              | (Some py_result, w) =>
                  let '(result, w) := parse_result py_result (result, w) in
                  (true, result, w)
              end
          end
      end
  | _, _ => (false, result, w)
  end.

Definition tinyhook_post_syscall (num : Z) (ret : Z) (a : SyscallArgs) (w : World)
  : Z * World :=
  match g_tinyhook_enabled w, g_post_syscall_hooks w with
  | true, Some hooks =>
      match PyLong_FromLong num with
      | None => (ret, PyErr_Clear w)
      | Some key =>
          match PyDict_GetItem hooks key with
          | None => (ret, w)
          | Some callback =>
              (* Call the Python callback *)
              match PyObject_CallFunction callback num (ret :: args_list a) w with
              | (None, w) =>
                  let w := fprintf_stderr
                             ("tinyhook: error in post-syscall hook for syscall "
                              +:+ pretty num +:+ ":") w in
                  (* not reached when PyErr_Print ends the process *)
                  (ret, PyErr_Print w)
              | (Some py_result, w) =>
                  (* Parse the result - expect an integer return value *)
                  if PyLong_Check py_result then
                    let '(v, w) := PyLong_AsLongLong py_result w in
                    (to_abi_long abi v, w)
                  else (ret, w)
              end
          end
      end
  | _, _ => (ret, w)
  end.

End Runtime.

(** ** The address-space collaborator, from the specification *)

Definition TARGET_EFAULT : Z := 14.

(** Modelled from the spec: [target_strlen] (linux-user, declared in
    qemu.h) is not part of tinyhook.c.  The specification calls it "a
    bounded terminator scan supplied by the address-space collaborator"
    that can be invalid: the scan walks the guest addresses from [addr],
    stops at the first zero byte and yields the number of bytes before
    it; it is invalid, with a negative result, as soon as an address has
    no translation or when [bound] bytes hold no terminator. *)
Fixpoint strlen_scan (g2h : Z -> option Z) (mem : Z -> byte)
  (bound : nat) (addr n : Z) : Z :=
  match bound with
  | O => - TARGET_EFAULT
  | S bound' =>
      match g2h (addr + n) with
      | None => - TARGET_EFAULT
      | Some p =>
          if byte_val (mem p) =? 0 then n
          else strlen_scan g2h mem bound' addr (n + 1)
      end
  end.

Definition target_strlen_scan (g2h : Z -> option Z) (bound : nat)
  (mem : Z -> byte) (addr : Z) : Z :=
  strlen_scan g2h mem bound addr 0.

(** ** A concrete host, guest and script

    One instance of every collaborator, on which the statements below
    are exercised. *)
Module Demo.

(** Guest pages 0x1000..0x1fff are mapped at host 0x7f0000001000. *)
Definition guest_base : Z := 0x7f0000000000.

Definition g2h (addr : Z) : option Z :=
  if (0x1000 <=? addr) && (addr <? 0x2000) then Some (addr + guest_base) else None.

(** Host memory: "hi\0" at guest 0x1000, the byte 0xff and a
    terminator at guest 0x1800, zero elsewhere. *)
Definition mem : Z -> byte :=
  memcpy (memcpy (fun _ => x00) (0x1000 + guest_base) ["h"; "i"; x00]%byte)
    (0x1800 + guest_base) [xff; x00]%byte.

Definition strlen : (Z -> byte) -> Z -> Z := target_strlen_scan g2h 4096.

Definition key (s : string) : PyObject := PyUnicode_FromLiteral s.

(** The callables of the script, by identifier. *)
Definition call (f : PyObject) (py_args : list PyObject) (w : World)
  : option PyObject * World :=
  match f with
  | PyFunction 0 =>
      (Some (PyDict [(key "action", PyLong 1); (key "ret", PyLong 42)]), w)
  | PyFunction 1 => (None, PyErr_SetString PyExc_RuntimeError "boom" w)
  | PyFunction 2 => (Some (PyLong 7), w)
  | PyFunction 3 =>
      (Some (PyDict [(key "args",
                      PyTuple [PyLong 11; PyUnicode (str_cps "x"); PyLong 13;
                               PyLong 14; PyLong 15; PyLong 16; PyLong 17;
                               PyLong 18])]), w)
  | PyFunction 4 => (Some (PyLong (2 ^ 63)), w)
  | PyFunction 5 => (Some PyNone, w)
  | PyFunction 6 =>
      (Some (PyDict [(key "args",
                      PyTuple (PyLong <$> [21; 22; 23; 24; 25; 26; 27; 28]))]), w)
  | PyFunction 7 => (Some (PyLong 0x100000005), w)
  | PyFunction 8 => (None, PyErr_SetString (PyExc_SystemExit 3) "3" w)
  | _ => (None, PyErr_SetString PyExc_TypeError "object is not callable" w)
  end.

Definition run_file (script : list byte) (w : World) : option PyObject * World :=
  (Some PyNone, w).

Definition dirname (path : string) : string := ".".

(** A running subsystem with one pre-hook and one post-hook per
    callable above, all on syscall numbers 100 + identifier. *)
Definition hooks : HookDict :=
  (fun i => (100 + Z.of_nat i, PyFunction i)) <$> seq 0 9.

Definition running : World :=
  mkWorld true (Some (PyModule "tinyhook")) (Some hooks) (Some hooks)
    true None [] mem [] [] (fun _ => true) None.

(** The same subsystem on a host whose allocator grants at most 4096
    bytes at a time. *)
Definition low_memory : World :=
  set_py_alloc (fun n => n <=? 4096) running.

(** A script that ends with [sys.exit(2)]. *)
Definition run_exit (script : list byte) (w : World) : option PyObject * World :=
  (None, PyErr_SetString (PyExc_SystemExit 2) "2" w).

Definition sys_args : SyscallArgs := mkArgs 1 2 3 4 5 6 7 8.

Definition stale : TinyHookResult := mkResult TINYHOOK_SKIP [9; 9] 9.

(** A host on which every step of [tinyhook_init] succeeds. *)
Definition env_ok : HostEnv :=
  mkEnv 0 true true true true (fun _ => inr []).

End Demo.

(** ** Vocabulary of the statements *)

(** The C value [PyLong_AsLongLong] returns for an [int] of value [z]. *)
Definition llong_result (z : Z) : Z :=
  if CInt.in_range CInt.LLONG_MIN CInt.LLONG_MAX z then z else -1.

(** Slot [i] of the result after the loop over an 8-tuple: an [int]
    element replaces the argument, anything else keeps it. *)
Definition merged_arg (abi : TargetABI) (orig : Z) (item : PyObject) : Z :=
  match long_value item with
  | Some z => to_abi_long abi (llong_result z)
  | None => orig
  end.

Definition merged_args (abi : TargetABI) (orig : list Z) (items : list PyObject)
  : list Z :=
  zip_with (merged_arg abi) orig items.

(** "An 8-element sequence of integers", read generously: a tuple or a
    list of length 8 whose elements are all [int] objects. *)
Definition is_int_sequence8 (o : PyObject) : bool :=
  match o with
  | PyTuple items | PyList items =>
      (length items =? 8)%nat && forallb PyLong_Check items
  | _ => false
  end.

(** The guest address the translator is asked about when a script
    passes the [int] [addr]: taken as an [unsigned long long], then as
    an [abi_ptr]. *)
Definition guest_addr (abi : TargetABI) (addr : Z) : Z :=
  to_abi_ptr abi (CInt.wrap_unsigned 64 addr).

(** When [PyBytes_FromStringAndSize] can make an object of [size]
    bytes, for a positive [size]: a single byte always; otherwise the
    size leaves room for the header and the allocator grants it. *)
Definition can_create_bytes (w : World) (size : Z) : Prop :=
  size = 1
  \/ (size <= CInt.PY_SSIZE_T_MAX - PyBytesObject_SIZE
      /\ py_alloc w (PyBytesObject_SIZE + size) = true).




(** ** The rest of tinyhook.c *)

(** [PyInit_tinyhook]: the module object as the attributes it is given,
    in the order [PyModule_AddIntConstant] adds them. *)
Definition PyModule_AddIntConstant (m : list (string * PyObject))
  (name : string) (value : Z) : list (string * PyObject) :=
  m ++ [(name, PyLong value)].

Definition PyInit_tinyhook : list (string * PyObject) :=
  let m := [] in
  (* Add constants *)
  let m := PyModule_AddIntConstant m "CONTINUE" TINYHOOK_ACTION_CONTINUE in
  let m := PyModule_AddIntConstant m "SKIP" TINYHOOK_ACTION_SKIP in
  m.

Fixpoint module_getattr (m : list (string * PyObject)) (name : string)
  : option PyObject :=
  match m with
  | [] => None
  | (n, v) :: rest => if decide (n = name) then Some v else module_getattr rest name
  end.

(** The build without CONFIG_TINYHOOK: the five entry points of
    tinyhook.h as the [#else] branch defines them. *)
Module NoPython.

Definition tinyhook_init (script_path : string) (w : World) : Z * World :=
  (-1, fprintf_stderr "tinyhook: not compiled with Python support" w).

Definition tinyhook_shutdown (w : World) : World := w.

Definition tinyhook_enabled (w : World) : bool := false.

Definition tinyhook_pre_syscall (num : Z) (a : SyscallArgs)
  (result : TinyHookResult) (w : World) : bool * TinyHookResult * World :=
  (false, result, w).

Definition tinyhook_post_syscall (num : Z) (ret : Z) (a : SyscallArgs) (w : World)
  : Z * World :=
  (ret, w).

End NoPython.

Definition other_kind (k : HookKind) : HookKind :=
  match k with PreHook => PostHook | PostHook => PreHook end.



(** Two states that differ at most in the error indicator. *)
Definition same_but_error (w w' : World) : Prop :=
  w' = set_py_err (py_err w') w.

(** * Properties *)

(** ** Integer conversions *)

Lemma wrap_signed_id bits x :
  0 < bits -> - 2 ^ (bits - 1) <= x < 2 ^ (bits - 1) -> CInt.wrap_signed bits x = x.
Proof.
  intros Hb Hx. unfold CInt.wrap_signed.
  assert (E : 2 ^ bits = 2 * 2 ^ (bits - 1)).
  { replace bits with (Z.succ (bits - 1)) at 1 by lia.
    rewrite Z.pow_succ_r by lia. reflexivity. }
  rewrite Z.mod_small by lia. lia.
Qed.

Lemma wrap_signed_range bits x :
  0 < bits -> - 2 ^ (bits - 1) <= CInt.wrap_signed bits x < 2 ^ (bits - 1).
Proof.
  intros Hb. unfold CInt.wrap_signed.
  assert (E : 2 ^ bits = 2 * 2 ^ (bits - 1)).
  { replace bits with (Z.succ (bits - 1)) at 1 by lia.
    rewrite Z.pow_succ_r by lia. reflexivity. }
  assert (0 < 2 ^ (bits - 1)) by (apply Z.pow_pos_nonneg; lia).
  pose proof (Z.mod_pos_bound (x + 2 ^ (bits - 1)) (2 ^ bits)). lia.
Qed.

Lemma to_abi_long_id abi x : is_abi_long abi x -> to_abi_long abi x = x.
Proof.
  intros H. apply wrap_signed_id; [destruct abi; reflexivity | exact H].
Qed.

Lemma to_abi_long_is_abi_long abi x : is_abi_long abi (to_abi_long abi x).
Proof. apply wrap_signed_range. destruct abi; reflexivity. Qed.

(** ** Hook tables *)

Section HookDictFacts.

Implicit Types (d : HookDict) (k : Z) (v : PyObject).

Lemma hooks_get_set_eq d k v : hooks_get (hooks_set d k v) k = Some v.
Proof.
  induction d as [|[k' v'] d IH]; cbn [hooks_get hooks_set].
  - by rewrite decide_True.
  - destruct (decide (k' = k)) as [->|Hne]; cbn [hooks_get].
    + by rewrite decide_True.
    + by rewrite decide_False.
Qed.

Lemma hooks_get_set_ne d k k' v :
  k <> k' -> hooks_get (hooks_set d k v) k' = hooks_get d k'.
Proof.
  intros Hne. induction d as [|[k0 v0] d IH]; cbn [hooks_get hooks_set].
  - by rewrite decide_False.
  - destruct (decide (k0 = k)) as [->|Hne0]; cbn [hooks_get].
    + by rewrite !decide_False.
    + by destruct (decide (k0 = k')).
Qed.

Lemma hooks_set_keys d k v :
  (hooks_set d k v).*1 = if decide (k ∈ d.*1) then d.*1 else d.*1 ++ [k].
Proof.
  induction d as [|[k' v'] d IH]; cbn [hooks_set fmap list_fmap fst].
  - rewrite decide_False; [reflexivity | apply not_elem_of_nil].
  - destruct (decide (k' = k)) as [->|Hne]; cbn [fmap list_fmap fst].
    + rewrite decide_True; [reflexivity | apply list_elem_of_here].
    + rewrite IH. destruct (decide (k ∈ d.*1)) as [Hin|Hnin].
      * rewrite decide_True; [reflexivity | by apply list_elem_of_further].
      * rewrite decide_False; [reflexivity |].
        intros [E|Hin]%elem_of_cons; [congruence | contradiction].
Qed.

(** Keys stay unique under assignment: the invariant of a dict. *)
Lemma hooks_set_NoDup d k v : NoDup d.*1 -> NoDup (hooks_set d k v).*1.
Proof.
  intros Hnd. rewrite hooks_set_keys.
  destruct (decide (k ∈ d.*1)) as [Hin|Hnin]; [exact Hnd |].
  apply list.NoDup_app. split; [exact Hnd |]. split.
  - intros x Hx ->%list_elem_of_singleton. contradiction.
  - apply NoDup_singleton.
Qed.

Lemma hooks_count_absent d k : k ∉ d.*1 -> hooks_count d k = O.
Proof.
  induction d as [|[k' v'] d IH]; intros Hnin; [reflexivity |].
  rewrite fmap_cons in Hnin. cbn [fst] in Hnin.
  apply not_elem_of_cons in Hnin as [Hne Hnin].
  cbn [hooks_count]. rewrite decide_False by congruence. auto.
Qed.

Lemma hooks_count_NoDup d k :
  NoDup d.*1 -> k ∈ d.*1 -> hooks_count d k = 1%nat.
Proof.
  induction d as [|[k' v'] d IH]; intros Hnd Hin.
  - by apply elem_of_nil in Hin.
  - rewrite fmap_cons in Hnd, Hin. cbn [fst] in Hnd, Hin.
    apply list.NoDup_cons in Hnd as [Hk' Hnd].
    cbn [hooks_count]. destruct (decide (k' = k)) as [->|Hne].
    + by rewrite hooks_count_absent.
    + apply elem_of_cons in Hin as [E|Hin]; [congruence | auto].
Qed.

Lemma hooks_count_set d k v :
  NoDup d.*1 -> hooks_count (hooks_set d k v) k = 1%nat.
Proof.
  intros Hnd. apply hooks_count_NoDup; [by apply hooks_set_NoDup |].
  rewrite hooks_set_keys. destruct (decide (k ∈ d.*1)); [assumption |].
  apply elem_of_app. right. apply list_elem_of_here.
Qed.

Lemma hooks_set_set d k v1 v2 :
  hooks_set (hooks_set d k v1) k v2 = hooks_set d k v2.
Proof.
  induction d as [|[k' v'] d IH]; cbn [hooks_set].
  - by rewrite decide_True.
  - destruct (decide (k' = k)) as [->|Hne]; cbn [hooks_set].
    + by rewrite decide_True.
    + rewrite decide_False by auto. by rewrite IH.
Qed.

Lemma hooks_set_length_present d k v v' :
  hooks_get d k = Some v' -> length (hooks_set d k v) = length d.
Proof.
  induction d as [|[k0 v0] d IH]; cbn [hooks_get hooks_set]; [discriminate |].
  destruct (decide (k0 = k)); cbn [length]; auto.
Qed.

Lemma hooks_del_keys_subset d k x : x ∈ (hooks_del d k).*1 -> x ∈ d.*1.
Proof.
  induction d as [|[k' v'] d IH]; cbn [hooks_del]; [done |].
  destruct (decide (k' = k)) as [->|Hne].
  - intros Hx. rewrite fmap_cons. by apply list_elem_of_further.
  - rewrite !fmap_cons. cbn [fst].
    intros [->|Hx]%elem_of_cons; [apply list_elem_of_here |].
    apply list_elem_of_further. auto.
Qed.

Lemma hooks_del_NoDup d k : NoDup d.*1 -> NoDup (hooks_del d k).*1.
Proof.
  induction d as [|[k' v'] d IH]; cbn [hooks_del]; [done |].
  rewrite fmap_cons. cbn [fst]. intros [Hk' Hnd]%list.NoDup_cons.
  destruct (decide (k' = k)) as [->|Hne]; [exact Hnd |].
  rewrite fmap_cons. cbn [fst]. apply list.NoDup_cons. split; [| auto].
  intros Hin. apply Hk'. by apply hooks_del_keys_subset in Hin.
Qed.

Lemma hooks_get_del_eq d k : NoDup d.*1 -> hooks_get (hooks_del d k) k = None.
Proof.
  induction d as [|[k' v'] d IH]; cbn [hooks_del hooks_get]; [done |].
  rewrite fmap_cons. cbn [fst]. intros [Hk' Hnd]%list.NoDup_cons.
  destruct (decide (k' = k)) as [->|Hne].
  - clear IH. induction d as [|[k0 v0] d IH]; cbn [hooks_get]; [done |].
    rewrite fmap_cons in Hk', Hnd. cbn [fst] in Hk', Hnd.
    apply not_elem_of_cons in Hk' as [Hne Hk'].
    apply list.NoDup_cons in Hnd as [_ Hnd].
    rewrite decide_False by congruence. auto.
  - cbn [hooks_get]. rewrite decide_False by exact Hne. auto.
Qed.

End HookDictFacts.

Lemma hook_table_set kind d w : hook_table kind (set_hook_table kind d w) = d.
Proof. destruct kind; reflexivity. Qed.

Lemma conv_i_int num :
  CInt.INT_MIN <= num <= CInt.INT_MAX -> conv_i (PyLong num) = inr num.
Proof.
  intros [Hlo Hhi]. unfold conv_i. simpl.
  destruct (Z.gtb_spec num CInt.INT_MAX); [lia |].
  destruct (Z.ltb_spec num CInt.INT_MIN); [lia | reflexivity].
Qed.

(** One successful registration, as a function of the table. *)
Lemma py_register_hook_ok kind num cb w d :
  hook_table kind w = Some d ->
  CInt.INT_MIN <= num <= CInt.INT_MAX ->
  PyCallable_Check cb = true ->
  py_register_hook kind [PyLong num; cb] w
  = (Some PyNone, set_hook_table kind (Some (hooks_set d num cb)) w).
Proof.
  intros Ht Hnum Hcb. unfold py_register_hook, PyArg_ParseTuple_iO.
  rewrite (conv_i_int _ Hnum), Hcb. simpl.
  unfold PyDict_SetItem. rewrite Ht. reflexivity.
Qed.

(** C9: for both hook kinds and every syscall number (a C [int]),
    registering a callable [c1] and then a callable [c2] for the same
    number leaves a table in which [lookup] yields [c2] and exactly one
    entry is stored under that number: the second registration replaces
    the first entry, it does not add one.  The table is the one obtained
    by a single registration of [c2], and its keys are still unique. *)
Theorem register_replaces_entry kind num c1 c2 w d :
  hook_table kind w = Some d ->
  NoDup d.*1 ->
  CInt.INT_MIN <= num <= CInt.INT_MAX ->
  PyCallable_Check c1 = true ->
  PyCallable_Check c2 = true ->
  exists w1 w2 d1 d2,
    py_register_hook kind [PyLong num; c1] w = (Some PyNone, w1)
    /\ py_register_hook kind [PyLong num; c2] w1 = (Some PyNone, w2)
    /\ hook_table kind w1 = Some d1
    /\ hook_table kind w2 = Some d2
    /\ lookup kind num w2 = Some c2
    /\ hooks_count d2 num = 1%nat
    /\ length d2 = length d1
    /\ d2 = hooks_set d num c2
    /\ NoDup d2.*1.
Proof.
  intros Ht Hnd Hnum Hc1 Hc2.
  pose proof (py_register_hook_ok kind num c1 w d Ht Hnum Hc1) as R1.
  set (w1 := set_hook_table kind (Some (hooks_set d num c1)) w) in *.
  assert (Ht1 : hook_table kind w1 = Some (hooks_set d num c1))
    by apply hook_table_set.
  pose proof (py_register_hook_ok kind num c2 w1 _ Ht1 Hnum Hc2) as R2.
  set (d1 := hooks_set d num c1) in *.
  set (w2 := set_hook_table kind (Some (hooks_set d1 num c2)) w1) in *.
  exists w1, w2, d1, (hooks_set d1 num c2).
  assert (Ht2 : hook_table kind w2 = Some (hooks_set d1 num c2))
    by apply hook_table_set.
  repeat split; auto.
  - unfold lookup. rewrite Ht2. apply hooks_get_set_eq.
  - apply hooks_count_set. subst d1. by apply hooks_set_NoDup.
  - apply (hooks_set_length_present d1 num c2 c1). subst d1.
    apply hooks_get_set_eq.
  - subst d1. apply hooks_set_set.
  - apply hooks_set_NoDup. subst d1. by apply hooks_set_NoDup.
Qed.

(** On the demo host: two registrations for syscall 59 in the running
    pre-hook table. *)
Lemma register_replaces_entry_witness :
  exists w1 w2 d1 d2,
    py_register_hook PreHook [PyLong 59; PyFunction 0] Demo.running = (Some PyNone, w1)
    /\ py_register_hook PreHook [PyLong 59; PyFunction 1] w1 = (Some PyNone, w2)
    /\ hook_table PreHook w1 = Some d1
    /\ hook_table PreHook w2 = Some d2
    /\ lookup PreHook 59 w2 = Some (PyFunction 1)
    /\ hooks_count d2 59 = 1%nat
    /\ length d2 = length d1
    /\ d2 = hooks_set Demo.hooks 59 (PyFunction 1)
    /\ NoDup d2.*1.
Proof.
  apply (register_replaces_entry PreHook 59 (PyFunction 0) (PyFunction 1)
           Demo.running Demo.hooks).
  - reflexivity.
  - apply (bool_decide_unpack _). vm_compute. exact I.
  - vm_compute. split; discriminate.
  - reflexivity.
  - reflexivity.
Defined.

(** ** Lifecycle *)

Lemma shutdown_when_disabled w :
  g_tinyhook_enabled w = false -> tinyhook_shutdown w = w.
Proof. intros H. unfold tinyhook_shutdown. by rewrite H. Qed.

Lemma shutdown_disables w : g_tinyhook_enabled (tinyhook_shutdown w) = false.
Proof.
  unfold tinyhook_shutdown.
  destruct (g_tinyhook_enabled w) eqn:E; [| exact E].
  cbn zeta. match goal with |- context [if ?b then _ else _] => destruct b end;
    reflexivity.
Qed.

(** What a shutdown of a running subsystem gives back, in order. *)
Lemma shutdown_running_releases w pre post m :
  g_tinyhook_enabled w = true ->
  g_pre_syscall_hooks w = Some pre ->
  g_post_syscall_hooks w = Some post ->
  g_module w = Some m ->
  py_initialized w = true ->
  let w' := tinyhook_shutdown w in
  released w' = released w ++ [RPreHooks; RPostHooks; RModule; RInterpreter]
  /\ g_pre_syscall_hooks w' = None
  /\ g_post_syscall_hooks w' = None
  /\ g_module w' = None
  /\ py_initialized w' = false.
Proof.
  intros He Hpre Hpost Hm Hi. destruct w; simpl in *; subst.
  unfold tinyhook_shutdown. simpl. rewrite <- !app_assoc. auto.
Qed.

(** C8: [tinyhook_shutdown] is idempotent: on the state a shutdown
    leaves, a second shutdown changes nothing at all (so nothing is
    released twice and no error is raised); in that state
    [tinyhook_enabled] is false, [tinyhook_pre_syscall] reports that no
    hook fired and does not touch the caller's result or the state, and
    [tinyhook_post_syscall] returns the return value it was given. *)
Theorem shutdown_idempotent_then_inert abi call w num a res r :
  tinyhook_shutdown (tinyhook_shutdown w) = tinyhook_shutdown w
  /\ released (tinyhook_shutdown (tinyhook_shutdown w))
     = released (tinyhook_shutdown w)
  /\ py_err (tinyhook_shutdown (tinyhook_shutdown w))
     = py_err (tinyhook_shutdown w)
  /\ tinyhook_enabled (tinyhook_shutdown w) = false
  /\ tinyhook_pre_syscall abi call num a res (tinyhook_shutdown w)
     = (false, res, tinyhook_shutdown w)
  /\ tinyhook_post_syscall abi call num r a (tinyhook_shutdown w)
     = (r, tinyhook_shutdown w).
Proof.
  pose proof (shutdown_disables w) as Hd.
  pose proof (shutdown_when_disabled _ Hd) as Hs.
  rewrite Hs. repeat split; try reflexivity.
  - exact Hd.
  - unfold tinyhook_pre_syscall. by rewrite Hd.
  - unfold tinyhook_post_syscall. by rewrite Hd.
Qed.

(** The successful path, on the demo host: [tinyhook_init] enables the
    subsystem, and the shutdown that follows gives back both tables, the
    module and the interpreter. *)
Lemma init_success_then_shutdown :
  let out := tinyhook_init Demo.run_file Demo.dirname Demo.env_ok "hooks.py"
               (initial_world Demo.mem) in
  out.1 = 0
  /\ tinyhook_enabled out.2 = true
  /\ g_pre_syscall_hooks out.2 = Some []
  /\ g_post_syscall_hooks out.2 = Some []
  /\ released (tinyhook_shutdown out.2)
     = [RPreHooks; RPostHooks; RModule; RInterpreter]
  /\ g_pre_syscall_hooks (tinyhook_shutdown out.2) = None
  /\ g_post_syscall_hooks (tinyhook_shutdown out.2) = None
  /\ g_module (tinyhook_shutdown out.2) = None
  /\ py_initialized (tinyhook_shutdown out.2) = false.
Proof. cbn zeta. repeat split; reflexivity. Qed.

(** Once the runtime has started, every failure before the script runs
    (a table that cannot be allocated, the module import, the script
    file) ends the same way: failure is reported, and the shutdown that
    the path calls releases nothing, because the subsystem was never
    enabled. *)
Lemma init_failure_after_start run dirname env mem path :
  env_inittab env <> -1 ->
  env_py_starts env = true ->
  env_pre_dict env = false \/ env_post_dict env = false
  \/ env_import env = false \/ (exists err, env_fopen env path = inl err) ->
  let out := tinyhook_init run dirname env path (initial_world mem) in
  out.1 = -1
  /\ tinyhook_enabled out.2 = false
  /\ py_initialized out.2 = true
  /\ released out.2 = [].
Proof.
  intros Hreg Hstart Hfail. cbn zeta.
  destruct env as [rc starts pre post imp fop]. cbn in Hreg, Hstart, Hfail.
  subst starts. unfold tinyhook_init, initial_world, Py_Initialize, PyDict_New,
    PyImport_ImportModule, PyUnicode_FromString.
  cbn [env_inittab env_py_starts env_pre_dict env_post_dict env_import env_fopen].
  destruct (Z.eqb_spec rc (-1)) as [?|_]; [contradiction |].
  destruct pre, post, imp; cbn; try (repeat split; reflexivity).
  destruct Hfail as [?|[?|[?|[err Herr]]]]; try discriminate.
  destruct (utf8_decode _); cbn; rewrite Herr; cbn;
    repeat split; reflexivity.
Qed.

(** C1, on the code: [tinyhook_init] started from the initial state on a
    host where the runtime starts, both tables are allocated and the
    module is imported, but the script cannot be opened.  It reports
    failure and the subsystem is not enabled; but the call to
    [tinyhook_shutdown] on that path finds [g_tinyhook_enabled] still
    false and returns at once, so both hook tables and the module
    reference are still held, the interpreter is still initialized and
    nothing has been released. *)
Theorem init_failure_releases_nothing run dirname mem path err :
  let env := mkEnv 0 true true true true (fun _ => inl err) in
  let out := tinyhook_init run dirname env path (initial_world mem) in
  out.1 = -1
  /\ tinyhook_enabled out.2 = false
  /\ g_pre_syscall_hooks out.2 = Some []
  /\ g_post_syscall_hooks out.2 = Some []
  /\ g_module out.2 = Some (PyModule "tinyhook")
  /\ py_initialized out.2 = true
  /\ released out.2 = []
  /\ stderr out.2
     = ["tinyhook: failed to open script '" +:+ path +:+ "': " +:+ err].
Proof.
  unfold tinyhook_init, initial_world, Py_Initialize, PyDict_New,
    PyImport_ImportModule, PyUnicode_FromString. simpl.
  destruct (utf8_decode _); simpl; repeat split; reflexivity.
Qed.

(** ** Dispatch engine *)


Lemma PyErr_Print_exits w code :
  system_exit_code w = Some code -> PyErr_Print w = Py_Exit code w.
Proof.
  unfold system_exit_code, PyErr_Print.
  destruct (py_err w) as [e|]; [| discriminate].
  destruct (exc_type e); try discriminate. by intros [= ->].
Qed.

Lemma Py_Exit_status code w : exit_status (Py_Exit code w) = Some code.
Proof. reflexivity. Qed.

Section Dispatch.

Variable abi : TargetABI.
Variable call : PyObject -> list PyObject -> World -> option PyObject * World.

Lemma PyLong_AsLongLong_value o z w :
  long_value o = Some z -> (PyLong_AsLongLong o w).1 = llong_result z.
Proof.
  intros H. unfold PyLong_AsLongLong, llong_result. rewrite H.
  by destruct (CInt.in_range _ _ z).
Qed.

Lemma PyLong_Check_value o : PyLong_Check o = bool_decide (is_Some (long_value o)).
Proof. destruct o; reflexivity. Qed.

Lemma pre_no_hook num a r w hooks :
  g_tinyhook_enabled w = true ->
  g_pre_syscall_hooks w = Some hooks ->
  hooks_get hooks num = None ->
  tinyhook_pre_syscall abi call num a r w = (false, default_result a, w).
Proof.
  intros He Hp Hg. unfold tinyhook_pre_syscall.
  rewrite He, Hp. cbn [PyLong_FromLong PyDict_GetItem long_value].
  by rewrite Hg.
Qed.

Lemma pre_disabled num a r w :
  g_tinyhook_enabled w = false \/ g_pre_syscall_hooks w = None ->
  tinyhook_pre_syscall abi call num a r w = (false, r, w).
Proof.
  unfold tinyhook_pre_syscall. intros [-> | ->]; [reflexivity |].
  by destruct (g_tinyhook_enabled w).
Qed.


Lemma pre_fired num a r w hooks cb v w1 :
  g_tinyhook_enabled w = true ->
  g_pre_syscall_hooks w = Some hooks ->
  hooks_get hooks num = Some cb ->
  call cb (PyLong num :: (PyLong <$> args_list a)) w = (Some v, w1) ->
  tinyhook_pre_syscall abi call num a r w
  = (true, (parse_result abi v (default_result a, w1)).1,
     (parse_result abi v (default_result a, w1)).2).
Proof.
  intros He Hp Hg Hc. unfold tinyhook_pre_syscall.
  rewrite He, Hp. cbn [PyLong_FromLong PyDict_GetItem long_value].
  rewrite Hg. unfold PyObject_CallFunction. rewrite Hc.
  by destruct (parse_result abi v (default_result a, w1)).
Qed.

Lemma post_no_hook num r a w hooks :
  g_tinyhook_enabled w = true ->
  g_post_syscall_hooks w = Some hooks ->
  hooks_get hooks num = None ->
  tinyhook_post_syscall abi call num r a w = (r, w).
Proof.
  intros He Hp Hg. unfold tinyhook_post_syscall.
  rewrite He, Hp. cbn [PyLong_FromLong PyDict_GetItem long_value].
  by rewrite Hg.
Qed.

Lemma post_disabled num r a w :
  g_tinyhook_enabled w = false \/ g_post_syscall_hooks w = None ->
  tinyhook_post_syscall abi call num r a w = (r, w).
Proof.
  unfold tinyhook_post_syscall. intros [-> | ->]; [reflexivity |].
  by destruct (g_tinyhook_enabled w).
Qed.



(** The three decoding steps touch disjoint fields. *)
Lemma parse_action_args v rw : args (parse_action v rw).1 = args rw.1.
Proof.
  destruct rw as [r w]. unfold parse_action.
  destruct (PyDict_GetItemString v "action") as [act|]; [| reflexivity].
  destruct (PyLong_Check act); [| reflexivity].
  destruct (PyLong_AsLong act w) as [x w'].
  by destruct (x =? TINYHOOK_ACTION_SKIP).
Qed.

Lemma parse_ret_args v rw : args (parse_ret abi v rw).1 = args rw.1.
Proof.
  destruct rw as [r w]. unfold parse_ret.
  destruct (PyDict_GetItemString v "ret") as [x|]; [| reflexivity].
  destruct (PyLong_Check x); [| reflexivity].
  by destruct (PyLong_AsLongLong x w).
Qed.

Lemma parse_ret_action v rw : action (parse_ret abi v rw).1 = action rw.1.
Proof.
  destruct rw as [r w]. unfold parse_ret.
  destruct (PyDict_GetItemString v "ret") as [x|]; [| reflexivity].
  destruct (PyLong_Check x); [| reflexivity].
  by destruct (PyLong_AsLongLong x w).
Qed.

Lemma parse_arg_action t rw i : action (parse_arg abi t rw i).1 = action rw.1.
Proof.
  destruct rw as [r w]. unfold parse_arg.
  destruct (PyTuple_GetItem t i) as [x|]; [| reflexivity].
  destruct (PyLong_Check x); [| reflexivity].
  by destruct (PyLong_AsLongLong x w).
Qed.

Lemma parse_arg_ret t rw i : ret (parse_arg abi t rw i).1 = ret rw.1.
Proof.
  destruct rw as [r w]. unfold parse_arg.
  destruct (PyTuple_GetItem t i) as [x|]; [| reflexivity].
  destruct (PyLong_Check x); [| reflexivity].
  by destruct (PyLong_AsLongLong x w).
Qed.

(** One iteration of the loop, on the argument array. *)
Lemma parse_arg_args t rw i item :
  PyTuple_GetItem t i = Some item ->
  args (parse_arg abi t rw i).1
  = match long_value item with
    | Some z => <[i := to_abi_long abi (llong_result z)]> (args rw.1)
    | None => args rw.1
    end.
Proof.
  intros Hi. destruct rw as [r w]. unfold parse_arg. rewrite Hi.
  rewrite PyLong_Check_value.
  destruct (long_value item) as [z|] eqn:Hz; [| reflexivity].
  rewrite bool_decide_true by eauto.
  pose proof (PyLong_AsLongLong_value item z w Hz) as Hv.
  destruct (PyLong_AsLongLong item w) as [x w']. simpl in Hv. by subst.
Qed.

Lemma parse_args_loop items r w :
  length items = 8%nat ->
  length (args r) = 8%nat ->
  args (foldl (parse_arg abi (PyTuple items)) (r, w) (seq 0 8)).1
  = merged_args abi (args r) items.
Proof.
  intros Hi Ha.
  destruct items as [|i0 [|i1 [|i2 [|i3 [|i4 [|i5 [|i6 [|i7 [|]]]]]]]]];
    try discriminate Hi.
  destruct (args r) as [|a0 [|a1 [|a2 [|a3 [|a4 [|a5 [|a6 [|a7 [|]]]]]]]]] eqn:Er;
    try discriminate Ha.
  cbn [seq foldl].
  repeat (erewrite parse_arg_args; [| reflexivity]).
  cbn [fst]. rewrite Er. unfold merged_args, merged_arg. cbn [zip_with].
  destruct (long_value i0), (long_value i1), (long_value i2), (long_value i3),
    (long_value i4), (long_value i5), (long_value i6), (long_value i7);
    reflexivity.
Qed.

End Dispatch.

Lemma is_abi_long_llong abi z : is_abi_long abi z -> llong_result z = z.
Proof.
  unfold is_abi_long, llong_result, CInt.in_range, CInt.LLONG_MIN, CInt.LLONG_MAX.
  intros H.
  assert (- 2 ^ 63 <= z <= 2 ^ 63 - 1) as [Hlo Hhi].
  { destruct abi; cbn [TARGET_ABI_BITS] in H.
    - change (2 ^ (32 - 1)) with 2147483648 in H.
      change (2 ^ 63) with 9223372036854775808. lia.
    - change (2 ^ (64 - 1)) with 9223372036854775808 in H.
      change (2 ^ 63) with 9223372036854775808. lia. }
  apply Z.leb_le in Hlo, Hhi. by rewrite Hlo, Hhi.
Qed.

Lemma abi_long_roundtrip abi z :
  is_abi_long abi z -> to_abi_long abi (llong_result z) = z.
Proof.
  intros H. rewrite (is_abi_long_llong abi z H). by apply to_abi_long_id.
Qed.

Lemma merged_args_ints abi (orig bs : list Z) :
  length orig = length bs ->
  Forall (is_abi_long abi) bs ->
  merged_args abi orig (PyLong <$> bs) = bs.
Proof.
  intros Hlen Hall. revert orig Hlen.
  induction Hall as [|b bs Hb Hall IH]; intros [|o orig] Hlen;
    try discriminate Hlen; [reflexivity |].
  unfold merged_args in *. rewrite fmap_cons. cbn [zip_with].
  unfold merged_arg at 1. cbn [long_value].
  rewrite (abi_long_roundtrip abi b Hb). f_equal. apply IH.
  by injection Hlen.
Qed.

Section DispatchProperties.

Variable abi : TargetABI.
Variable call : PyObject -> list PyObject -> World -> option PyObject * World.

(** C4: the subsystem is running, a pre-hook is registered for
    syscall [num], and its call returns a dict that holds SKIP under
    "action", 42 under "ret" and nothing under "args".  Then
    [tinyhook_pre_syscall] reports that a hook fired and the result is
    action SKIP, return value 42 and the eight original arguments. *)
Theorem pre_hook_skip_with_ret num a r w hooks cb d w1 :
  g_tinyhook_enabled w = true ->
  g_pre_syscall_hooks w = Some hooks ->
  hooks_get hooks num = Some cb ->
  call cb (PyLong num :: (PyLong <$> args_list a)) w = (Some (PyDict d), w1) ->
  dict_get_str d (str_cps "action") = Some (PyLong TINYHOOK_ACTION_SKIP) ->
  dict_get_str d (str_cps "ret") = Some (PyLong 42) ->
  dict_get_str d (str_cps "args") = None ->
  tinyhook_pre_syscall abi call num a r w
  = (true, mkResult TINYHOOK_SKIP (args_list a) 42, w1).
Proof.
  intros He Hp Hg Hc Hact Hret Hargs.
  rewrite (pre_fired abi call num a r w hooks cb _ w1 He Hp Hg Hc).
  unfold parse_result, parse_ret, parse_args, parse_action.
  cbn [PyDict_Check PyDict_GetItemString]. rewrite Hact, Hret, Hargs.
  destruct abi; reflexivity.
Qed.


(** C2, as amended: the subsystem is running and the pre-hook for
    [num] returns a dict.  The entry under "args" takes effect exactly
    when it is a tuple of length 8, and then slot by slot: an element
    that is an [int] replaces the argument of its slot (converted to
    [abi_long]), an element of any other type leaves the original
    argument of its slot.  With no "args" entry, or one of any other
    shape or length, the result holds the eight original arguments.
    In particular a tuple of eight [int]s that fit [abi_long] replaces
    all eight arguments by exactly those values. *)
Theorem pre_hook_args_decoding num a r w hooks cb d w1 :
  g_tinyhook_enabled w = true ->
  g_pre_syscall_hooks w = Some hooks ->
  hooks_get hooks num = Some cb ->
  call cb (PyLong num :: (PyLong <$> args_list a)) w = (Some (PyDict d), w1) ->
  let result := (tinyhook_pre_syscall abi call num a r w).1.2 in
  args result
  = match dict_get_str d (str_cps "args") with
    | Some (PyTuple items) =>
        if (length items =? 8)%nat then merged_args abi (args_list a) items
        else args_list a
    | _ => args_list a
    end
  /\ (forall bs,
        dict_get_str d (str_cps "args") = Some (PyTuple (PyLong <$> bs)) ->
        length bs = 8%nat ->
        Forall (is_abi_long abi) bs ->
        args result = bs).
Proof.
  intros He Hp Hg Hc. cbn zeta.
  rewrite (pre_fired abi call num a r w hooks cb _ w1 He Hp Hg Hc).
  cbn [fst snd]. unfold parse_result. cbn [PyDict_Check].
  rewrite parse_ret_args.
  assert (Hmain :
    args (parse_args abi (PyDict d)
            (parse_action (PyDict d) (default_result a, w1))).1
    = match dict_get_str d (str_cps "args") with
      | Some (PyTuple items) =>
          if (length items =? 8)%nat then merged_args abi (args_list a) items
          else args_list a
      | _ => args_list a
      end).
  { pose proof (parse_action_args (PyDict d) (default_result a, w1)) as Ha.
    cbn [fst default_result args] in Ha.
    destruct (parse_action (PyDict d) (default_result a, w1)) as [r1 w2].
    cbn [fst] in Ha. unfold parse_args. cbn [PyDict_GetItemString].
    destruct (dict_get_str d (str_cps "args")) as [v|]; [| exact Ha].
    destruct v; cbn [PyTuple_Check PyTuple_Size andb]; try exact Ha.
    destruct (Nat.eqb_spec (length items) 8) as [E|E];
      destruct (Z.eqb_spec (Z.of_nat (length items)) 8) as [E'|E'];
      try lia; [| exact Ha].
    rewrite parse_args_loop; [by rewrite Ha | exact E |].
    by rewrite Ha. }
  split; [exact Hmain |].
  intros bs Hbs Hlen Hall. rewrite Hmain, Hbs.
  rewrite length_fmap, Hlen. cbn [Nat.eqb].
  apply merged_args_ints; [by rewrite Hlen | exact Hall].
Qed.


End DispatchProperties.

(** On the demo host: syscall 100, whose pre-hook returns
    [{action: 1, ret: 42}]. *)
Lemma pre_hook_skip_with_ret_witness :
  tinyhook_pre_syscall ABI64 Demo.call 100 Demo.sys_args Demo.stale Demo.running
  = (true, mkResult TINYHOOK_SKIP [1; 2; 3; 4; 5; 6; 7; 8] 42, Demo.running).
Proof.
  apply (pre_hook_skip_with_ret ABI64 Demo.call 100 Demo.sys_args Demo.stale
           Demo.running Demo.hooks (PyFunction 0)
           [(Demo.key "action", PyLong 1); (Demo.key "ret", PyLong 42)]
           Demo.running); reflexivity.
Defined.



(** C2, as stated, fails: the pre-hook for syscall 103 returns an "args"
    tuple of length 8 whose second element is a [str].  That is not an
    8-element sequence of integers, yet seven of the eight arguments are
    replaced: only the slot of the [str] keeps its original value. *)
Lemma pre_hook_args_mixed_tuple_counterexample :
  let tuple := PyTuple [PyLong 11; PyUnicode (str_cps "x"); PyLong 13; PyLong 14;
                        PyLong 15; PyLong 16; PyLong 17; PyLong 18] in
  let out := tinyhook_pre_syscall ABI64 Demo.call 103 Demo.sys_args Demo.stale
               Demo.running in
  Demo.call (PyFunction 3) (PyLong 103 :: (PyLong <$> args_list Demo.sys_args))
    Demo.running
  = (Some (PyDict [(Demo.key "args", tuple)]), Demo.running)
  /\ is_int_sequence8 tuple = false
  /\ out.1.1 = true
  /\ args_list Demo.sys_args = [1; 2; 3; 4; 5; 6; 7; 8]
  /\ args out.1.2 = [11; 2; 13; 14; 15; 16; 17; 18]
  /\ args out.1.2 <> args_list Demo.sys_args.
Proof. cbn zeta. repeat split; try reflexivity. vm_compute. discriminate. Qed.

(** On the demo host: syscall 106, whose pre-hook returns an [args] tuple
    of eight integers. *)
Lemma pre_hook_args_decoding_witness :
  args (tinyhook_pre_syscall ABI64 Demo.call 106 Demo.sys_args Demo.stale
          Demo.running).1.2
  = [21; 22; 23; 24; 25; 26; 27; 28].
Proof.
  refine (proj2 (pre_hook_args_decoding ABI64 Demo.call 106 Demo.sys_args
                   Demo.stale Demo.running Demo.hooks (PyFunction 6)
                   [(Demo.key "args",
                     PyTuple (PyLong <$> [21; 22; 23; 24; 25; 26; 27; 28]))]
                   Demo.running eq_refl eq_refl eq_refl eq_refl)
            [21; 22; 23; 24; 25; 26; 27; 28] eq_refl eq_refl _).
  repeat constructor; vm_compute; discriminate.
Defined.



(** ** Memory bridge *)

Lemma read_bytes_length mem p size :
  length (read_bytes mem p size) = Z.to_nat size.
Proof. unfold read_bytes. by rewrite length_fmap, length_seq. Qed.

Lemma read_bytes_lookup mem p size i :
  (i < Z.to_nat size)%nat ->
  read_bytes mem p size !! i = Some (mem (p + Z.of_nat i)).
Proof.
  intros Hi. unfold read_bytes. rewrite list_lookup_fmap.
  by rewrite lookup_seq_lt.
Qed.

Lemma conv_n_ssize size :
  CInt.PY_SSIZE_T_MIN <= size <= CInt.PY_SSIZE_T_MAX ->
  conv_n (PyLong size) = inr size.
Proof.
  intros [Hlo Hhi]. unfold conv_n, CInt.in_range. cbn [long_value].
  apply Z.leb_le in Hlo, Hhi. by rewrite Hlo, Hhi.
Qed.

Lemma set_host_mem_same w : set_host_mem (host_mem w) w = w.
Proof. by destruct w. Qed.

Lemma strlen_scan_hi g2h mem bound ga p :
  (2 < bound)%nat ->
  g2h ga = Some p ->
  g2h (ga + 1) = Some (p + 1) ->
  g2h (ga + 2) = Some (p + 2) ->
  mem p = "h"%byte ->
  mem (p + 1) = "i"%byte ->
  mem (p + 2) = x00 ->
  target_strlen_scan g2h bound mem ga = 2.
Proof.
  intros Hb H0 H1 H2 Hh Hi Hz.
  destruct bound as [|[|[|bound]]]; try lia.
  unfold target_strlen_scan. cbn [strlen_scan].
  change (0 + 1) with 1. change (1 + 1) with 2.
  rewrite Z.add_0_r, H0, Hh. change (byte_val "h" =? 0) with false. cbv iota.
  rewrite H1, Hi. change (byte_val "i" =? 0) with false. cbv iota.
  rewrite H2, Hz. reflexivity.
Qed.

Lemma PyBytes_created mem p size w :
  0 < size ->
  can_create_bytes w size ->
  PyBytes_FromStringAndSize mem p size w
  = (Some (PyBytes (read_bytes mem p size)), w).
Proof.
  intros Hpos Hc. unfold PyBytes_FromStringAndSize.
  destruct (Z.ltb_spec size 0) as [?|_]; [lia |].
  destruct (Z.eqb_spec size 0) as [?|_]; [lia |].
  destruct (Z.eqb_spec size 1) as [?|H1]; [reflexivity |]. cbn [orb].
  destruct Hc as [?|[Hle Ha]]; [contradiction |].
  destruct (Z.gtb_spec size (CInt.PY_SSIZE_T_MAX - PyBytesObject_SIZE));
    [lia |].
  by rewrite Ha.
Qed.

(** ASCII text decodes to itself. *)
Lemma utf8_decode_ascii bs :
  Forall (fun b => byte_val b < 0x80) bs ->
  utf8_decode bs = Some (byte_val <$> bs).
Proof.
  induction 1 as [|b bs Hb Hall IH]; [reflexivity |].
  cbn [utf8_decode]. apply Z.ltb_lt in Hb. rewrite Hb, IH. reflexivity.
Qed.

Section BridgeProperties.

Variable abi : TargetABI.
Variable g2h : Z -> option Z.

(** C6, as amended: [read_memory(addr, size)] for any Python [int]
    [size].  A size outside the range of [Py_ssize_t] is rejected by
    argument parsing with OverflowError.  A size in that range with
    [size <= 0] raises ValueError ("size must be positive"), the
    InvalidArgument of the specification.  A positive size with an
    address the translator has no host pointer for raises MemoryError
    ("invalid guest address"), the AddressError of the specification.
    Otherwise the outcome is that of creating the [bytes] object: when
    it can be created the call returns exactly [size] bytes, byte [i]
    being the byte of host memory at the translated address plus [i],
    and changes nothing; a size that leaves no room for the object
    header raises OverflowError ("byte string is too large"), and an
    allocation that fails raises MemoryError. *)
Theorem read_memory_checks_then_copies w addr size :
  let out := py_read_memory abi g2h [PyLong addr; PyLong size] w in
  (~ (CInt.PY_SSIZE_T_MIN <= size <= CInt.PY_SSIZE_T_MAX) ->
   out = (None, raise (mkPyErr PyExc_OverflowError
                         "Python int too large to convert to C ssize_t") w))
  /\ (CInt.PY_SSIZE_T_MIN <= size <= 0 ->
      out = (None, PyErr_SetString PyExc_ValueError "size must be positive" w))
  /\ (0 < size <= CInt.PY_SSIZE_T_MAX -> g2h (guest_addr abi addr) = None ->
      out = (None, PyErr_SetString PyExc_MemoryError "invalid guest address" w))
  /\ (0 < size <= CInt.PY_SSIZE_T_MAX ->
      forall p, g2h (guest_addr abi addr) = Some p ->
      (can_create_bytes w size ->
       exists bs,
         out = (Some (PyBytes bs), w)
         /\ Z.of_nat (length bs) = size
         /\ forall i, 0 <= i < size ->
              bs !! Z.to_nat i = Some (host_mem w (p + i)))
      /\ (CInt.PY_SSIZE_T_MAX - PyBytesObject_SIZE < size ->
          out = (None, PyErr_SetString PyExc_OverflowError
                         "byte string is too large" w))
      /\ (1 < size <= CInt.PY_SSIZE_T_MAX - PyBytesObject_SIZE ->
          py_alloc w (PyBytesObject_SIZE + size) = false ->
          out = (None, PyErr_NoMemory w))).
Proof.
  cbn zeta. unfold py_read_memory, PyArg_ParseTuple_Kn.
  cbn [conv_K long_value]. fold (guest_addr abi addr).
  assert (Hmin : CInt.PY_SSIZE_T_MIN < 0) by reflexivity.
  split; [| split; [| split]].
  - intros Hout. unfold conv_n, CInt.in_range. cbn [long_value].
    destruct (Z.leb_spec CInt.PY_SSIZE_T_MIN size);
      destruct (Z.leb_spec size CInt.PY_SSIZE_T_MAX); try reflexivity.
    exfalso. apply Hout. by split.
  - intros [Hlo Hle].
    rewrite conv_n_ssize by (unfold CInt.PY_SSIZE_T_MAX; cbn; lia).
    apply Z.leb_le in Hle. by rewrite Hle.
  - intros [Hpos Hhi] Hg. rewrite conv_n_ssize by lia.
    unfold guest_addr in Hg. apply Z.leb_gt in Hpos. by rewrite Hpos, Hg.
  - intros [Hpos Hhi] p Hg. rewrite conv_n_ssize by lia.
    unfold guest_addr in Hg.
    pose proof Hpos as Hpos'. apply Z.leb_gt in Hpos'. rewrite Hpos', Hg.
    split; [| split].
    + intros Hc. rewrite (PyBytes_created _ p size w Hpos Hc).
      exists (read_bytes (host_mem w) p size). split; [reflexivity |]. split.
      * rewrite read_bytes_length. lia.
      * intros i Hi. rewrite read_bytes_lookup by lia.
        by rewrite Z2Nat.id by lia.
    + intros Hbig. unfold PyBytes_FromStringAndSize.
      assert (Hh : 0 < CInt.PY_SSIZE_T_MAX - PyBytesObject_SIZE - 1) by reflexivity.
      destruct (Z.ltb_spec size 0) as [?|_]; [lia |].
      destruct (Z.eqb_spec size 0) as [?|_]; [lia |].
      destruct (Z.eqb_spec size 1) as [?|_]; [lia |]. cbn [orb].
      destruct (Z.gtb_spec size (CInt.PY_SSIZE_T_MAX - PyBytesObject_SIZE));
        [reflexivity | lia].
    + intros [H1 Hle] Ha. unfold PyBytes_FromStringAndSize.
      destruct (Z.ltb_spec size 0) as [?|_]; [lia |].
      destruct (Z.eqb_spec size 0) as [?|_]; [lia |].
      destruct (Z.eqb_spec size 1) as [?|_]; [lia |]. cbn [orb].
      destruct (Z.gtb_spec size (CInt.PY_SSIZE_T_MAX - PyBytesObject_SIZE));
        [lia |].
      by rewrite Ha.
Qed.

(** A size outside the range of [Py_ssize_t] never reaches the checks of
    [py_read_memory]: argument parsing rejects it with OverflowError. *)
Lemma read_memory_size_not_ssize w addr size :
  ~ (CInt.PY_SSIZE_T_MIN <= size <= CInt.PY_SSIZE_T_MAX) ->
  py_read_memory abi g2h [PyLong addr; PyLong size] w
  = (None, raise (mkPyErr PyExc_OverflowError
                    "Python int too large to convert to C ssize_t") w).
Proof.
  intros Hout. unfold py_read_memory, PyArg_ParseTuple_Kn, conv_n, CInt.in_range.
  cbn [conv_K long_value].
  destruct (Z.leb_spec CInt.PY_SSIZE_T_MIN size);
    destruct (Z.leb_spec size CInt.PY_SSIZE_T_MAX); try reflexivity.
  exfalso. apply Hout. by split.
Qed.

(** C7, as amended: [read_string(addr)] raises MemoryError, the
    AddressError of the specification, when the translator has no host
    pointer for the address ("invalid guest address") and when the
    terminator scan is negative ("invalid string address").  Otherwise
    it decodes exactly the [len] bytes the scan found, terminator
    excluded, as UTF-8: it returns the text when they are valid UTF-8
    (for ASCII bytes, the same characters) and raises UnicodeDecodeError
    when they are not.  With the scan of
    the specification, a guest buffer holding "hi" and a terminator
    yields the two-character string "hi". *)
Theorem read_string_scans_then_decodes strlen w addr :
  let out := py_read_string abi g2h strlen [PyLong addr] w in
  let len := strlen (host_mem w) (guest_addr abi addr) in
  (g2h (guest_addr abi addr) = None ->
   out = (None, PyErr_SetString PyExc_MemoryError "invalid guest address" w))
  /\ (forall p, g2h (guest_addr abi addr) = Some p -> len < 0 ->
      out = (None, PyErr_SetString PyExc_MemoryError "invalid string address" w))
  /\ (forall p, g2h (guest_addr abi addr) = Some p -> 0 <= len ->
      length (read_bytes (host_mem w) p len) = Z.to_nat len
      /\ out = match utf8_decode (read_bytes (host_mem w) p len) with
               | Some cps => (Some (PyUnicode cps), w)
               | None =>
                   (None, PyErr_SetString PyExc_UnicodeDecodeError
                            "'utf-8' codec can't decode bytes" w)
               end
      /\ (Forall (fun b => byte_val b < 0x80) (read_bytes (host_mem w) p len) ->
          out = (Some (PyUnicode (byte_val <$> read_bytes (host_mem w) p len)), w)))
  /\ (forall bound p,
        (2 < bound)%nat ->
        g2h (guest_addr abi addr) = Some p ->
        g2h (guest_addr abi addr + 1) = Some (p + 1) ->
        g2h (guest_addr abi addr + 2) = Some (p + 2) ->
        host_mem w p = "h"%byte ->
        host_mem w (p + 1) = "i"%byte ->
        host_mem w (p + 2) = x00 ->
        py_read_string abi g2h (target_strlen_scan g2h bound) [PyLong addr] w
        = (Some (PyUnicode (str_cps "hi")), w)
        /\ length (str_cps "hi") = 2%nat).
Proof.
  cbn zeta. unfold py_read_string, PyArg_ParseTuple_K.
  cbn [conv_K long_value]. fold (guest_addr abi addr).
  split; [| split; [| split]].
  - by intros ->.
  - intros p -> Hlen. apply Z.ltb_lt in Hlen. by rewrite Hlen.
  - intros p -> Hlen. split; [apply read_bytes_length |].
    apply Z.ltb_ge in Hlen. rewrite Hlen. split; [reflexivity |].
    intros Hascii. unfold PyUnicode_FromStringAndSize.
    by rewrite (utf8_decode_ascii _ Hascii).
  - intros bound p Hb H0 H1 H2 Hh Hi Hz. split; [| reflexivity].
    rewrite H0.
    rewrite (strlen_scan_hi g2h (host_mem w) bound _ p Hb H0 H1 H2 Hh Hi Hz).
    unfold PyUnicode_FromStringAndSize, read_bytes.
    change (Z.to_nat 2) with 2%nat. cbn [seq fmap list_fmap].
    change (Z.of_nat 0) with 0. change (Z.of_nat 1) with 1.
    by rewrite Z.add_0_r, Hh, Hi.
Qed.

(** C10: [write_memory(addr, b"")] at any address the translator has a
    host pointer for succeeds: it returns None, raises nothing, and the
    state, host memory included, is exactly what it was.  No size is
    validated on this path (a write of any length succeeds there),
    whereas [read_memory] of zero bytes at the same address raises
    ValueError. *)
Theorem write_memory_accepts_empty w addr p :
  g2h (guest_addr abi addr) = Some p ->
  py_write_memory abi g2h [PyLong addr; PyBytes []] w = (Some PyNone, w)
  /\ (forall a, host_mem (py_write_memory abi g2h [PyLong addr; PyBytes []] w).2 a
                = host_mem w a)
  /\ py_err (py_write_memory abi g2h [PyLong addr; PyBytes []] w).2 = py_err w
  /\ (forall buf,
        (py_write_memory abi g2h [PyLong addr; PyBytes buf] w).1 = Some PyNone)
  /\ py_read_memory abi g2h [PyLong addr; PyLong 0] w
     = (None, PyErr_SetString PyExc_ValueError "size must be positive" w).
Proof.
  intros Hg.
  assert (E : py_write_memory abi g2h [PyLong addr; PyBytes []] w
              = (Some PyNone, w)).
  { unfold py_write_memory, PyArg_ParseTuple_Kystar.
    cbn [conv_K conv_ystar long_value]. fold (guest_addr abi addr). rewrite Hg.
    cbn [memcpy]. by rewrite set_host_mem_same. }
  rewrite E. repeat split; try reflexivity.
  intros buf. unfold py_write_memory, PyArg_ParseTuple_Kystar.
  cbn [conv_K conv_ystar long_value]. fold (guest_addr abi addr).
  by rewrite Hg.
Qed.

End BridgeProperties.

(** On the demo host: three bytes read at guest address 0x1000. *)
Lemma read_memory_checks_then_copies_witness :
  0 < 3 <= CInt.PY_SSIZE_T_MAX
  /\ Demo.g2h (guest_addr ABI64 0x1000) = Some 0x7f0000001000
  /\ can_create_bytes Demo.running 3
  /\ exists bs,
       py_read_memory ABI64 Demo.g2h [PyLong 0x1000; PyLong 3] Demo.running
       = (Some (PyBytes bs), Demo.running)
       /\ Z.of_nat (length bs) = 3
       /\ forall i, 0 <= i < 3 ->
            bs !! Z.to_nat i = Some (host_mem Demo.running (0x7f0000001000 + i)).
Proof.
  assert (Hsz : 0 < 3 <= CInt.PY_SSIZE_T_MAX) by (vm_compute; split; [reflexivity | discriminate]).
  assert (Hc : can_create_bytes Demo.running 3).
  { right. split; [vm_compute; discriminate | reflexivity]. }
  split; [exact Hsz |]. split; [reflexivity |]. split; [exact Hc |].
  exact (proj1 (proj2 (proj2 (proj2 (read_memory_checks_then_copies ABI64 Demo.g2h
                                       Demo.running 0x1000 3))) Hsz
                  0x7f0000001000 eq_refl) Hc).
Defined.

(** C6, as stated, fails: guest address 0x1000 is mapped and the size
    2^63 - 1 is positive, yet [read_memory] returns no bytes: the size
    leaves no room for the object header and OverflowError is raised.
    On a host whose allocator refuses the request, a read of 8192 bytes
    at the same address raises MemoryError (with no message, unlike the
    one of an unmapped address). *)
Lemma read_memory_huge_size_counterexample :
  Demo.g2h (guest_addr ABI64 0x1000) = Some 0x7f0000001000
  /\ 0 < 2 ^ 63 - 1 <= CInt.PY_SSIZE_T_MAX
  /\ py_read_memory ABI64 Demo.g2h [PyLong 0x1000; PyLong (2 ^ 63 - 1)]
       Demo.running
     = (None, PyErr_SetString PyExc_OverflowError "byte string is too large"
                Demo.running)
  /\ py_alloc Demo.low_memory (PyBytesObject_SIZE + 8192) = false
  /\ py_read_memory ABI64 Demo.g2h [PyLong 0x1000; PyLong 8192] Demo.low_memory
     = (None, PyErr_NoMemory Demo.low_memory).
Proof.
  split; [reflexivity |]. split; [vm_compute; split; [reflexivity | discriminate] |].
  repeat split; reflexivity.
Qed.

(** C7, as stated, fails: guest address 0x1800 is mapped and holds the
    byte 0xff followed by a terminator, so the scan is valid and finds
    one byte; [read_string] then raises UnicodeDecodeError: it neither
    fails with the MemoryError of an invalid address nor returns text. *)
Lemma read_string_invalid_utf8_counterexample :
  let out := py_read_string ABI64 Demo.g2h Demo.strlen [PyLong 0x1800]
               Demo.running in
  Demo.g2h (guest_addr ABI64 0x1800) = Some 0x7f0000001800
  /\ Demo.strlen (host_mem Demo.running) (guest_addr ABI64 0x1800) = 1
  /\ read_bytes (host_mem Demo.running) 0x7f0000001800 1 = [xff]
  /\ out.1 = None
  /\ py_err out.2
     = Some (mkPyErr PyExc_UnicodeDecodeError "'utf-8' codec can't decode bytes").
Proof. cbn zeta. repeat split; reflexivity. Qed.

(** On the demo host: the string at guest address 0x1000. *)
Lemma read_string_scans_then_decodes_witness :
  py_read_string ABI64 Demo.g2h (target_strlen_scan Demo.g2h 4096)
    [PyLong 0x1000] Demo.running
  = (Some (PyUnicode [104; 105]), Demo.running)
  /\ length (str_cps "hi") = 2%nat.
Proof.
  apply (proj2 (proj2 (proj2 (read_string_scans_then_decodes ABI64 Demo.g2h
                                Demo.strlen Demo.running 0x1000)))
           4096%nat 0x7f0000001000);
    [lia | reflexivity ..].
Defined.

(** On the demo host: an empty write at guest address 0x1000. *)
Lemma write_memory_accepts_empty_witness :
  Demo.g2h (guest_addr ABI64 0x1000) = Some 0x7f0000001000
  /\ py_write_memory ABI64 Demo.g2h [PyLong 0x1000; PyBytes []] Demo.running
     = (Some PyNone, Demo.running).
Proof.
  split; [reflexivity |].
  apply (write_memory_accepts_empty ABI64 Demo.g2h Demo.running 0x1000
           0x7f0000001000 eq_refl).
Defined.

(** * Further properties of the code *)

(** ** Registry: removal, frame and failure *)

Lemma hooks_get_del_ne (d : HookDict) k k' :
  k <> k' -> hooks_get (hooks_del d k) k' = hooks_get d k'.
Proof.
  intros Hne. induction d as [|[k0 v0] d IH]; cbn [hooks_del hooks_get]; [done |].
  destruct (decide (k0 = k)) as [->|Hne0].
  - by rewrite decide_False.
  - cbn [hooks_get]. by rewrite IH.
Qed.

Lemma hook_table_set_other kind d w :
  hook_table (other_kind kind) (set_hook_table kind d w)
  = hook_table (other_kind kind) w.
Proof. destruct kind; reflexivity. Qed.

Lemma py_unregister_hook_run kind num w d :
  hook_table kind w = Some d ->
  CInt.INT_MIN <= num <= CInt.INT_MAX ->
  py_unregister_hook kind [PyLong num] w
  = (Some PyNone,
     PyErr_Clear (match hooks_get d num with
                  | Some _ => set_hook_table kind (Some (hooks_del d num)) w
                  | None => PyErr_SetString PyExc_KeyError (pretty num) w
                  end)).
Proof.
  intros Ht Hnum. unfold py_unregister_hook, PyArg_ParseTuple_i.
  rewrite (conv_i_int _ Hnum). cbn [PyLong_FromLong].
  unfold PyDict_DelItem. rewrite Ht. cbn [long_value].
  by destruct (hooks_get d num).
Qed.

(** X1: unregistering a syscall number that has no hook is not an
    error: the call returns None, no exception is left pending, and
    both tables, host memory and standard error are what they were. *)
Theorem unregister_absent_is_noop kind num w d :
  hook_table kind w = Some d ->
  CInt.INT_MIN <= num <= CInt.INT_MAX ->
  hooks_get d num = None ->
  let out := py_unregister_hook kind [PyLong num] w in
  out.1 = Some PyNone
  /\ out.2 = PyErr_Clear w
  /\ py_err out.2 = None
  /\ g_pre_syscall_hooks out.2 = g_pre_syscall_hooks w
  /\ g_post_syscall_hooks out.2 = g_post_syscall_hooks w
  /\ host_mem out.2 = host_mem w
  /\ stderr out.2 = stderr w.
Proof.
  intros Ht Hnum Hg. cbn zeta.
  rewrite (py_unregister_hook_run kind num w d Ht Hnum), Hg.
  by destruct w.
Qed.

(** On the demo host: syscall 59 has no pre-hook. *)
Lemma unregister_absent_is_noop_witness :
  (py_unregister_hook PreHook [PyLong 59] Demo.running).1 = Some PyNone
  /\ g_pre_syscall_hooks (py_unregister_hook PreHook [PyLong 59] Demo.running).2
     = Some Demo.hooks.
Proof.
  destruct (unregister_absent_is_noop PreHook 59 Demo.running Demo.hooks)
    as (H1 & _ & _ & H4 & _); try reflexivity.
  - vm_compute. split; discriminate.
  - split; [exact H1 | exact H4].
Defined.

(** X2: unregistering removes the hook of that number and nothing
    else: afterwards [lookup] finds nothing under the number, every
    other number of the table still has its callback, and the table of
    the other kind is untouched. *)
Theorem unregister_removes_only_that_entry kind num w d :
  hook_table kind w = Some d ->
  NoDup d.*1 ->
  CInt.INT_MIN <= num <= CInt.INT_MAX ->
  let out := py_unregister_hook kind [PyLong num] w in
  out.1 = Some PyNone
  /\ lookup kind num out.2 = None
  /\ (forall num', num' <> num -> lookup kind num' out.2 = lookup kind num' w)
  /\ hook_table (other_kind kind) out.2 = hook_table (other_kind kind) w.
Proof.
  intros Ht Hnd Hnum. cbn zeta.
  rewrite (py_unregister_hook_run kind num w d Ht Hnum). cbn [fst snd].
  split; [reflexivity |].
  destruct (hooks_get d num) as [cb|] eqn:Hg.
  - assert (E : forall k', hook_table k' (PyErr_Clear
                 (set_hook_table kind (Some (hooks_del d num)) w))
               = hook_table k' (set_hook_table kind (Some (hooks_del d num)) w))
      by (intros []; reflexivity).
    unfold lookup. rewrite !E, hook_table_set, hook_table_set_other, Ht.
    split; [by apply hooks_get_del_eq |]. split; [| reflexivity].
    intros num' Hne. by apply hooks_get_del_ne.
  - assert (E : forall k', hook_table k' (PyErr_Clear
                 (PyErr_SetString PyExc_KeyError (pretty num) w))
               = hook_table k' w) by (intros []; reflexivity).
    unfold lookup. rewrite !E, Ht. auto.
Qed.

(** On the demo host: the pre-hook of syscall 100 is removed, the one of
    syscall 101 stays. *)
Lemma unregister_removes_only_that_entry_witness :
  lookup PreHook 100 (py_unregister_hook PreHook [PyLong 100] Demo.running).2
  = None
  /\ lookup PreHook 101 (py_unregister_hook PreHook [PyLong 100] Demo.running).2
     = Some (PyFunction 1).
Proof.
  destruct (unregister_removes_only_that_entry PreHook 100 Demo.running
              Demo.hooks) as (_ & H2 & H3 & _).
  - reflexivity.
  - apply (bool_decide_unpack _). vm_compute. exact I.
  - vm_compute. split; discriminate.
  - split; [exact H2 |]. rewrite (H3 101); [reflexivity | discriminate].
Defined.

(** X3: a successful registration is visible to [lookup] under its
    number and changes nothing else: every other number of that table
    keeps its callback, the table of the other kind, host memory, the
    error indicator and standard error are untouched. *)
Theorem register_changes_one_entry kind num cb w d :
  hook_table kind w = Some d ->
  CInt.INT_MIN <= num <= CInt.INT_MAX ->
  PyCallable_Check cb = true ->
  let out := py_register_hook kind [PyLong num; cb] w in
  out.1 = Some PyNone
  /\ lookup kind num out.2 = Some cb
  /\ (forall num', num' <> num -> lookup kind num' out.2 = lookup kind num' w)
  /\ hook_table (other_kind kind) out.2 = hook_table (other_kind kind) w
  /\ host_mem out.2 = host_mem w
  /\ py_err out.2 = py_err w
  /\ stderr out.2 = stderr w.
Proof.
  intros Ht Hnum Hcb. cbn zeta.
  rewrite (py_register_hook_ok kind num cb w d Ht Hnum Hcb). cbn [fst snd].
  unfold lookup. rewrite hook_table_set, hook_table_set_other, Ht.
  split; [reflexivity |]. split; [apply hooks_get_set_eq |].
  split; [intros num' Hne; by apply hooks_get_set_ne |].
  by destruct kind.
Qed.

(** On the demo host: a new pre-hook for syscall 59. *)
Lemma register_changes_one_entry_witness :
  lookup PreHook 59
    (py_register_hook PreHook [PyLong 59; PyFunction 2] Demo.running).2
  = Some (PyFunction 2)
  /\ hook_table PostHook
       (py_register_hook PreHook [PyLong 59; PyFunction 2] Demo.running).2
     = Some Demo.hooks.
Proof.
  destruct (register_changes_one_entry PreHook 59 (PyFunction 2) Demo.running
              Demo.hooks) as (_ & H2 & _ & H4 & _).
  - reflexivity.
  - vm_compute. split; discriminate.
  - reflexivity.
  - split; [exact H2 | exact H4].
Defined.

(** X4: a registration that fails changes no table: whatever the
    arguments, when [register_pre_hook] or [register_post_hook] returns
    [NULL] an exception is pending and both tables and host memory are
    what they were.  An object that is not callable is refused with
    TypeError ("callback must be callable"). *)
Theorem register_failure_keeps_tables kind py_args w :
  (py_register_hook kind py_args w).1 = None ->
  let out := py_register_hook kind py_args w in
  is_Some (py_err out.2)
  /\ g_pre_syscall_hooks out.2 = g_pre_syscall_hooks w
  /\ g_post_syscall_hooks out.2 = g_post_syscall_hooks w
  /\ host_mem out.2 = host_mem w
  /\ (forall num cb,
        py_args = [PyLong num; cb] ->
        CInt.INT_MIN <= num <= CInt.INT_MAX ->
        PyCallable_Check cb = false ->
        out = (None, PyErr_SetString PyExc_TypeError "callback must be callable" w)).
Proof.
  cbn zeta. intros Hfail. split; [| split; [| split; [| split]]].
  1-4: revert Hfail; unfold py_register_hook;
    destruct (PyArg_ParseTuple_iO py_args) as [e|[n cb]]; cbn [fst snd];
    [intros _; by eauto | ];
    destruct (PyCallable_Check cb); cbn [negb fst snd PyLong_FromLong];
    [| intros _; by eauto];
    unfold PyDict_SetItem; cbn [long_value];
    destruct (hook_table kind w); cbn; [discriminate | intros _; by eauto].
  intros num cb -> Hnum Hcb. unfold py_register_hook, PyArg_ParseTuple_iO.
  by rewrite (conv_i_int _ Hnum), Hcb.
Qed.

(** On the demo host: registering the integer 7 as a callback. *)
Lemma register_failure_keeps_tables_witness :
  (py_register_hook PreHook [PyLong 59; PyLong 7] Demo.running).1 = None
  /\ g_pre_syscall_hooks
       (py_register_hook PreHook [PyLong 59; PyLong 7] Demo.running).2
     = Some Demo.hooks.
Proof.
  split; [reflexivity |].
  apply (register_failure_keeps_tables PreHook [PyLong 59; PyLong 7]
           Demo.running eq_refl).
Defined.

(** ** Memory bridge: writes, round trip and what reads leave alone *)

Lemma store_other mem p b a : a <> p -> store mem p b a = mem a.
Proof. intros Hne. unfold store. by rewrite decide_False. Qed.

Lemma memcpy_outside buf : forall mem p a,
  a < p \/ p + Z.of_nat (length buf) <= a -> memcpy mem p buf a = mem a.
Proof.
  induction buf as [|b rest IH]; intros mem p a Ha; [reflexivity |].
  cbn [memcpy]. cbn [length] in Ha.
  rewrite IH by lia. apply store_other. lia.
Qed.

Lemma memcpy_inside buf : forall mem p i b,
  buf !! i = Some b -> memcpy mem p buf (p + Z.of_nat i) = b.
Proof.
  induction buf as [|b0 rest IH]; intros mem p i b Hi; [done |].
  cbn [memcpy]. destruct i as [|i].
  - injection Hi as ->. rewrite memcpy_outside by lia.
    unfold store. rewrite decide_True; [reflexivity | cbn; lia].
  - cbn in Hi. replace (p + Z.of_nat (S i)) with ((p + 1) + Z.of_nat i) by lia.
    by apply IH.
Qed.

Lemma read_bytes_memcpy mem p buf :
  read_bytes (memcpy mem p buf) p (Z.of_nat (length buf)) = buf.
Proof.
  apply list_eq. intros i.
  destruct (buf !! i) as [b|] eqn:Hi.
  - rewrite read_bytes_lookup.
    + f_equal. by apply memcpy_inside.
    + rewrite Nat2Z.id. by apply lookup_lt_Some in Hi.
  - apply lookup_ge_None. rewrite read_bytes_length, Nat2Z.id.
    by apply lookup_ge_None in Hi.
Qed.

Lemma conv_K_period addr k :
  conv_K (PyLong (addr + k * 2 ^ 64)) = conv_K (PyLong addr).
Proof.
  unfold conv_K, CInt.wrap_unsigned. cbn [long_value].
  by rewrite Z_mod_plus_full.
Qed.

Lemma set_py_err_same w : set_py_err (py_err w) w = w.
Proof. by destruct w. Qed.

Section BridgeFurther.

Variable abi : TargetABI.
Variable g2h : Z -> option Z.

Lemma py_write_memory_mapped w addr p data :
  g2h (guest_addr abi addr) = Some p ->
  py_write_memory abi g2h [PyLong addr; PyBytes data] w
  = (Some PyNone, set_host_mem (memcpy (host_mem w) p data) w).
Proof.
  intros Hg. unfold py_write_memory, PyArg_ParseTuple_Kystar.
  cbn [conv_K conv_ystar long_value]. fold (guest_addr abi addr).
  by rewrite Hg.
Qed.

(** X5: what [write_memory] stored, [read_memory] returns: after
    writing a non-empty bytes object at an address the translator has a
    host pointer for, reading as many bytes at the same address yields
    exactly the bytes written and changes nothing, provided the bytes
    object of the result can be created. *)
Theorem write_then_read_roundtrip w addr p data :
  g2h (guest_addr abi addr) = Some p ->
  data <> [] ->
  Z.of_nat (length data) <= CInt.PY_SSIZE_T_MAX ->
  can_create_bytes w (Z.of_nat (length data)) ->
  let written := py_write_memory abi g2h [PyLong addr; PyBytes data] w in
  written.1 = Some PyNone
  /\ py_read_memory abi g2h [PyLong addr; PyLong (Z.of_nat (length data))]
       written.2
     = (Some (PyBytes data), written.2).
Proof.
  intros Hg Hne Hmax Hc. cbn zeta.
  rewrite (py_write_memory_mapped w addr p data Hg). cbn [fst snd].
  split; [reflexivity |].
  assert (Hpos : 0 < Z.of_nat (length data)) by (destruct data; [done | cbn; lia]).
  unfold py_read_memory, PyArg_ParseTuple_Kn. cbn [conv_K long_value].
  rewrite conv_n_ssize
    by (unfold CInt.PY_SSIZE_T_MIN; change (- 2 ^ 63) with (-9223372036854775808); lia).
  fold (guest_addr abi addr). rewrite Hg.
  destruct (Z.leb_spec (Z.of_nat (length data)) 0) as [?|_]; [lia |].
  rewrite PyBytes_created; [| exact Hpos | exact Hc].
  cbn [host_mem set_host_mem]. by rewrite read_bytes_memcpy.
Qed.

(** X6: [write_memory] writes the bytes it is given and no others:
    byte [i] of the data lands at the translated address plus [i], every
    host address outside that range keeps its byte, and neither the
    hook tables nor the error indicator change. *)
Theorem write_memory_writes_exactly_data w addr p data :
  g2h (guest_addr abi addr) = Some p ->
  let out := py_write_memory abi g2h [PyLong addr; PyBytes data] w in
  (forall i b, data !! i = Some b -> host_mem out.2 (p + Z.of_nat i) = b)
  /\ (forall a, a < p \/ p + Z.of_nat (length data) <= a ->
        host_mem out.2 a = host_mem w a)
  /\ g_pre_syscall_hooks out.2 = g_pre_syscall_hooks w
  /\ g_post_syscall_hooks out.2 = g_post_syscall_hooks w
  /\ py_err out.2 = py_err w.
Proof.
  intros Hg. cbn zeta. rewrite (py_write_memory_mapped w addr p data Hg).
  cbn [snd host_mem set_host_mem]. split; [| split; [| by destruct w]].
  - intros i b Hi. by apply memcpy_inside.
  - intros a Ha. by apply memcpy_outside.
Qed.

(** X7: a [write_memory] that fails has written nothing: whatever the
    arguments, when it returns [NULL] an exception is pending and host
    memory and both tables are what they were.  With an address the
    translator has no host pointer for, the exception is MemoryError
    ("invalid guest address"), also for empty data. *)
Theorem write_memory_failure_writes_nothing py_args w :
  (py_write_memory abi g2h py_args w).1 = None ->
  let out := py_write_memory abi g2h py_args w in
  is_Some (py_err out.2)
  /\ host_mem out.2 = host_mem w
  /\ g_pre_syscall_hooks out.2 = g_pre_syscall_hooks w
  /\ g_post_syscall_hooks out.2 = g_post_syscall_hooks w
  /\ (forall addr data,
        py_args = [PyLong addr; PyBytes data] ->
        g2h (guest_addr abi addr) = None ->
        out = (None, PyErr_SetString PyExc_MemoryError "invalid guest address" w)).
Proof.
  cbn zeta. intros Hfail. split; [| split; [| split; [| split]]].
  1-4: revert Hfail; unfold py_write_memory;
    destruct (PyArg_ParseTuple_Kystar py_args) as [e|[a buf]]; cbn [fst snd];
    [intros _; by eauto |];
    destruct (g2h (to_abi_ptr abi a)); cbn; [discriminate | intros _; by eauto].
  intros addr data -> Hg. unfold py_write_memory, PyArg_ParseTuple_Kystar.
  cbn [conv_K conv_ystar long_value]. fold (guest_addr abi addr).
  by rewrite Hg.
Qed.

(** X8: reading never writes: for all arguments, [read_memory] and
    [read_string] leave the whole state as it was (tables, host memory,
    standard error) except, when they fail, for the exception they
    raise. *)
Theorem bridge_reads_change_only_error strlen py_args w :
  same_but_error w (py_read_memory abi g2h py_args w).2
  /\ same_but_error w (py_read_string abi g2h strlen py_args w).2.
Proof.
  unfold same_but_error. split.
  - unfold py_read_memory.
    destruct (PyArg_ParseTuple_Kn py_args) as [e|[a size]]; [reflexivity |].
    destruct (size <=? 0); [reflexivity |].
    destruct (g2h (to_abi_ptr abi a)); [| reflexivity].
    unfold PyBytes_FromStringAndSize. destruct (size <? 0); [reflexivity |].
    destruct (_ || _); [cbn [snd]; by rewrite set_py_err_same |].
    destruct (_ >? _); [reflexivity |].
    destruct (py_alloc w _); [cbn [snd]; by rewrite set_py_err_same | reflexivity].
  - unfold py_read_string.
    destruct (PyArg_ParseTuple_K py_args) as [e|a]; [reflexivity |].
    destruct (g2h (to_abi_ptr abi a)); [| reflexivity].
    destruct (_ <? 0); [reflexivity |].
    unfold PyUnicode_FromStringAndSize. destruct (utf8_decode _); [| reflexivity].
    cbn [snd]. by rewrite set_py_err_same.
Qed.

(** X9: guest addresses are taken modulo 2^64 (format unit "K", no
    overflow check): the three bridge functions cannot tell an address
    from the same address plus any multiple of 2^64, negative ones
    included. *)
Theorem bridge_address_modulo_2_64 strlen addr k x w :
  py_read_memory abi g2h [PyLong (addr + k * 2 ^ 64); x] w
  = py_read_memory abi g2h [PyLong addr; x] w
  /\ py_write_memory abi g2h [PyLong (addr + k * 2 ^ 64); x] w
     = py_write_memory abi g2h [PyLong addr; x] w
  /\ py_read_string abi g2h strlen [PyLong (addr + k * 2 ^ 64)] w
     = py_read_string abi g2h strlen [PyLong addr] w.
Proof.
  unfold py_read_memory, py_write_memory, py_read_string,
    PyArg_ParseTuple_Kn, PyArg_ParseTuple_Kystar, PyArg_ParseTuple_K.
  by rewrite !conv_K_period.
Qed.

End BridgeFurther.

(** On the demo host: "XY" written at guest 0x1004 and read back. *)
Lemma write_then_read_roundtrip_witness :
  let written := py_write_memory ABI64 Demo.g2h
                   [PyLong 0x1004; PyBytes ["X"; "Y"]%byte] Demo.running in
  py_read_memory ABI64 Demo.g2h [PyLong 0x1004; PyLong 2] written.2
  = (Some (PyBytes ["X"; "Y"]%byte), written.2).
Proof.
  apply (write_then_read_roundtrip ABI64 Demo.g2h Demo.running 0x1004
           0x7f0000001004 ["X"; "Y"]%byte eq_refl); [discriminate | |].
  - vm_compute. discriminate.
  - right. split; [vm_compute; discriminate | reflexivity].
Defined.

(** On the demo host: "XY" written at guest 0x1004 leaves the "h" at
    guest 0x1000 in place. *)
Lemma write_memory_writes_exactly_data_witness :
  let out := py_write_memory ABI64 Demo.g2h
               [PyLong 0x1004; PyBytes ["X"; "Y"]%byte] Demo.running in
  host_mem out.2 0x7f0000001005 = "Y"%byte
  /\ host_mem out.2 0x7f0000001000 = host_mem Demo.running 0x7f0000001000.
Proof.
  destruct (write_memory_writes_exactly_data ABI64 Demo.g2h Demo.running 0x1004
              0x7f0000001004 ["X"; "Y"]%byte eq_refl) as (H1 & H2 & _).
  split; [exact (H1 1%nat "Y"%byte eq_refl) |].
  apply H2. left. reflexivity.
Defined.

(** On the demo host: a write at the unmapped guest address 0x3000. *)
Lemma write_memory_failure_writes_nothing_witness :
  (py_write_memory ABI64 Demo.g2h [PyLong 0x3000; PyBytes ["X"]%byte]
     Demo.running).1 = None
  /\ host_mem (py_write_memory ABI64 Demo.g2h [PyLong 0x3000; PyBytes ["X"]%byte]
                 Demo.running).2
     = host_mem Demo.running.
Proof.
  split; [reflexivity |].
  apply (write_memory_failure_writes_nothing ABI64 Demo.g2h
           [PyLong 0x3000; PyBytes ["X"]%byte] Demo.running eq_refl).
Defined.

(** ** Dispatch: decoding field by field, and the registry seen from it *)

Section DispatchFurther.

Variable abi : TargetABI.
Variable call : PyObject -> list PyObject -> World -> option PyObject * World.

Lemma parse_loop_action t l : forall rw,
  action (foldl (parse_arg abi t) rw l).1 = action rw.1.
Proof.
  induction l as [|i l IH]; intros rw; [reflexivity |].
  cbn [foldl]. by rewrite IH, parse_arg_action.
Qed.

Lemma parse_loop_ret t l : forall rw,
  ret (foldl (parse_arg abi t) rw l).1 = ret rw.1.
Proof.
  induction l as [|i l IH]; intros rw; [reflexivity |].
  cbn [foldl]. by rewrite IH, parse_arg_ret.
Qed.

Lemma parse_arg_length t rw i :
  length (args (parse_arg abi t rw i).1) = length (args rw.1).
Proof.
  destruct rw as [r w]. unfold parse_arg.
  destruct (PyTuple_GetItem t i) as [x|]; [| reflexivity].
  destruct (PyLong_Check x); [| reflexivity].
  destruct (PyLong_AsLongLong x w). cbn. apply length_insert.
Qed.

Lemma parse_loop_length t l : forall rw,
  length (args (foldl (parse_arg abi t) rw l).1) = length (args rw.1).
Proof.
  induction l as [|i l IH]; intros rw; [reflexivity |].
  cbn [foldl]. by rewrite IH, parse_arg_length.
Qed.

Lemma parse_args_action v rw : action (parse_args abi v rw).1 = action rw.1.
Proof.
  unfold parse_args. destruct (PyDict_GetItemString v "args") as [t|]; [| done].
  destruct (_ && _); [apply parse_loop_action | done].
Qed.

Lemma parse_args_ret v rw : ret (parse_args abi v rw).1 = ret rw.1.
Proof.
  unfold parse_args. destruct (PyDict_GetItemString v "args") as [t|]; [| done].
  destruct (_ && _); [apply parse_loop_ret | done].
Qed.

Lemma parse_args_length v rw :
  length (args (parse_args abi v rw).1) = length (args rw.1).
Proof.
  unfold parse_args. destruct (PyDict_GetItemString v "args") as [t|]; [| done].
  destruct (_ && _); [apply parse_loop_length | done].
Qed.

Lemma parse_action_ret v rw : ret (parse_action v rw).1 = ret rw.1.
Proof.
  destruct rw as [r w]. unfold parse_action.
  destruct (PyDict_GetItemString v "action") as [act|]; [| reflexivity].
  destruct (PyLong_Check act); [| reflexivity].
  destruct (PyLong_AsLong act w) as [x w'].
  by destruct (x =? TINYHOOK_ACTION_SKIP).
Qed.

Lemma PyLong_AsLong_is_one o z w :
  long_value o = Some z ->
  ((PyLong_AsLong o w).1 =? TINYHOOK_ACTION_SKIP) = bool_decide (z = 1).
Proof.
  intros Hz. unfold PyLong_AsLong, CInt.in_range, CInt.LONG_MIN, CInt.LONG_MAX,
    TINYHOOK_ACTION_SKIP. rewrite Hz.
  destruct (decide (z = 1)) as [->|Hne].
  - reflexivity.
  - rewrite (bool_decide_false _ Hne).
    destruct (_ && _); cbn [fst]; [by apply Z.eqb_neq | reflexivity].
Qed.

Lemma parse_action_value v r w :
  action (parse_action v (r, w)).1
  = match PyDict_GetItemString v "action" with
    | Some x =>
        if bool_decide (long_value x = Some 1) then TINYHOOK_SKIP else action r
    | None => action r
    end.
Proof.
  unfold parse_action.
  destruct (PyDict_GetItemString v "action") as [x|]; [| reflexivity].
  rewrite PyLong_Check_value.
  destruct (long_value x) as [z|] eqn:Hz.
  - rewrite bool_decide_true by eauto.
    pose proof (PyLong_AsLong_is_one x z w Hz) as H1.
    destruct (PyLong_AsLong x w) as [y w']. cbn [fst] in H1. rewrite H1.
    destruct (decide (z = 1)) as [->|Hne].
    + by rewrite !bool_decide_true.
    + rewrite !bool_decide_false; [reflexivity | congruence | exact Hne].
  - rewrite bool_decide_false by (by intros [? ?]).
    by rewrite bool_decide_false.
Qed.

Lemma parse_ret_value v r w :
  ret (parse_ret abi v (r, w)).1
  = match PyDict_GetItemString v "ret" with
    | Some x =>
        match long_value x with
        | Some z => to_abi_long abi (llong_result z)
        | None => ret r
        end
    | None => ret r
    end.
Proof.
  unfold parse_ret.
  destruct (PyDict_GetItemString v "ret") as [x|]; [| reflexivity].
  rewrite PyLong_Check_value.
  destruct (long_value x) as [z|] eqn:Hz.
  - rewrite bool_decide_true by eauto.
    pose proof (PyLong_AsLongLong_value x z w Hz) as H1.
    destruct (PyLong_AsLongLong x w) as [y w']. cbn [fst] in H1. by subst.
  - by rewrite bool_decide_false by (by intros [? ?]).
Qed.

(** X10: a pre-hook whose return value is not a dict (None, an [int],
    a tuple, ...) still counts as a hook that fired: the dispatch
    returns true with the defaults, that is CONTINUE, the eight original
    arguments and return value 0, in the state the callback left. *)
Theorem pre_hook_non_dict_fires_with_defaults num a r w hooks cb v w1 :
  g_tinyhook_enabled w = true ->
  g_pre_syscall_hooks w = Some hooks ->
  hooks_get hooks num = Some cb ->
  call cb (PyLong num :: (PyLong <$> args_list a)) w = (Some v, w1) ->
  PyDict_Check v = false ->
  tinyhook_pre_syscall abi call num a r w
  = (true, mkResult TINYHOOK_CONTINUE (args_list a) 0, w1).
Proof.
  intros He Hp Hg Hc Hv.
  rewrite (pre_fired abi call num a r w hooks cb v w1 He Hp Hg Hc).
  unfold parse_result. by rewrite Hv.
Qed.

(** X11: the action of the result is SKIP exactly when the dict holds
    under "action" an [int] (or [bool]) of value 1; any other integer,
    an entry of another type, or no entry leave CONTINUE.  Neither the
    "args" nor the "ret" entry has any influence on it. *)
Theorem pre_hook_action_decoding num a r w hooks cb d w1 :
  g_tinyhook_enabled w = true ->
  g_pre_syscall_hooks w = Some hooks ->
  hooks_get hooks num = Some cb ->
  call cb (PyLong num :: (PyLong <$> args_list a)) w = (Some (PyDict d), w1) ->
  action (tinyhook_pre_syscall abi call num a r w).1.2
  = match dict_get_str d (str_cps "action") with
    | Some x =>
        if bool_decide (long_value x = Some 1) then TINYHOOK_SKIP
        else TINYHOOK_CONTINUE
    | None => TINYHOOK_CONTINUE
    end.
Proof.
  intros He Hp Hg Hc.
  rewrite (pre_fired abi call num a r w hooks cb _ w1 He Hp Hg Hc).
  cbn [fst snd]. unfold parse_result. cbn [PyDict_Check].
  rewrite parse_ret_action, parse_args_action, parse_action_value.
  reflexivity.
Qed.

(** X12: the return value of the result is the "ret" entry of the
    dict when that entry is an [int], converted to [abi_long], and 0
    otherwise.  It is decoded whatever the action is: a hook that
    returns a "ret" without asking for SKIP still has it stored. *)
Theorem pre_hook_ret_decoding num a r w hooks cb d w1 :
  g_tinyhook_enabled w = true ->
  g_pre_syscall_hooks w = Some hooks ->
  hooks_get hooks num = Some cb ->
  call cb (PyLong num :: (PyLong <$> args_list a)) w = (Some (PyDict d), w1) ->
  ret (tinyhook_pre_syscall abi call num a r w).1.2
  = match dict_get_str d (str_cps "ret") with
    | Some x =>
        match long_value x with
        | Some z => to_abi_long abi (llong_result z)
        | None => 0
        end
    | None => 0
    end.
Proof.
  intros He Hp Hg Hc.
  rewrite (pre_fired abi call num a r w hooks cb _ w1 He Hp Hg Hc).
  cbn [fst snd]. unfold parse_result. cbn [PyDict_Check].
  destruct (parse_args abi (PyDict d)
              (parse_action (PyDict d) (default_result a, w1))) as [r2 w2] eqn:E.
  rewrite parse_ret_value. cbn [PyDict_GetItemString].
  assert (Hr : ret r2 = 0).
  { change r2 with (r2, w2).1. rewrite <- E.
    by rewrite parse_args_ret, parse_action_ret. }
  by rewrite Hr.
Qed.

(** X13: while the subsystem runs, the result a pre-dispatch leaves
    always holds exactly eight arguments, whatever the registered
    callback does or returns: no decoding path shortens or extends the
    array. *)
Theorem pre_result_has_eight_args num a r w hooks :
  g_tinyhook_enabled w = true ->
  g_pre_syscall_hooks w = Some hooks ->
  length (args (tinyhook_pre_syscall abi call num a r w).1.2) = 8%nat.
Proof.
  intros He Hp. unfold tinyhook_pre_syscall. rewrite He, Hp.
  cbn [PyLong_FromLong PyDict_GetItem long_value].
  destruct (hooks_get hooks num) as [cb|]; [| reflexivity].
  destruct (PyObject_CallFunction call cb num (args_list a) w) as [[v|] w1];
    [| reflexivity].
  destruct (parse_result abi v (default_result a, w1)) as [r2 w2] eqn:E.
  cbn [fst snd]. change r2 with (r2, w2).1. rewrite <- E.
  unfold parse_result. destruct (PyDict_Check v); [| reflexivity].
  by rewrite parse_ret_args, parse_args_length, parse_action_args.
Qed.

(** X14: the constants [PyInit_tinyhook] gives the module are the ones
    the decoder understands: a pre-hook that returns the module's SKIP
    under "action" gets SKIP, one that returns the module's CONTINUE
    gets CONTINUE. *)
Theorem module_constants_select_action num a r w hooks cb d w1 :
  g_tinyhook_enabled w = true ->
  g_pre_syscall_hooks w = Some hooks ->
  hooks_get hooks num = Some cb ->
  call cb (PyLong num :: (PyLong <$> args_list a)) w = (Some (PyDict d), w1) ->
  let result := (tinyhook_pre_syscall abi call num a r w).1.2 in
  (dict_get_str d (str_cps "action") = module_getattr PyInit_tinyhook "SKIP" ->
   action result = TINYHOOK_SKIP)
  /\ (dict_get_str d (str_cps "action")
      = module_getattr PyInit_tinyhook "CONTINUE" ->
      action result = TINYHOOK_CONTINUE).
Proof.
  intros He Hp Hg Hc. cbn zeta.
  rewrite (pre_fired abi call num a r w hooks cb _ w1 He Hp Hg Hc).
  cbn [fst snd]. unfold parse_result. cbn [PyDict_Check].
  rewrite parse_ret_action, parse_args_action, parse_action_value.
  cbn [PyDict_GetItemString default_result action].
  split; intros ->; reflexivity.
Qed.

End DispatchFurther.

Section DispatchAndRegistry.

Variable abi : TargetABI.
Variable call : PyObject -> list PyObject -> World -> option PyObject * World.


(** X16: a hook that was unregistered is never called again: after
    [unregister_pre_hook(num)] a pre-dispatch of [num] reports no hook
    and leaves the defaults, and after [unregister_post_hook(num)] a
    post-dispatch of [num] returns the return value it was given; in
    both cases the state is not touched, whatever callable had been
    registered. *)
Theorem unregistered_hooks_are_not_dispatched num a r rv w dpre dpost :
  g_tinyhook_enabled w = true ->
  g_pre_syscall_hooks w = Some dpre ->
  g_post_syscall_hooks w = Some dpost ->
  NoDup dpre.*1 ->
  NoDup dpost.*1 ->
  CInt.INT_MIN <= num <= CInt.INT_MAX ->
  let w1 := (py_unregister_pre_hook [PyLong num] w).2 in
  let w2 := (py_unregister_post_hook [PyLong num] w).2 in
  tinyhook_pre_syscall abi call num a r w1 = (false, default_result a, w1)
  /\ tinyhook_post_syscall abi call num rv a w2 = (rv, w2).
Proof.
  intros He Hpre Hpost Hnd1 Hnd2 Hnum. cbn zeta.
  unfold py_unregister_pre_hook, py_unregister_post_hook.
  rewrite (py_unregister_hook_run PreHook num w dpre Hpre Hnum).
  rewrite (py_unregister_hook_run PostHook num w dpost Hpost Hnum).
  cbn [snd]. split.
  - destruct (hooks_get dpre num) as [cb|] eqn:Hg.
    + apply (pre_no_hook abi call num a r _ (hooks_del dpre num));
        [exact He | reflexivity | by apply hooks_get_del_eq].
    + apply (pre_no_hook abi call num a r _ dpre);
        [exact He | exact Hpre | exact Hg].
  - destruct (hooks_get dpost num) as [cb|] eqn:Hg.
    + apply (post_no_hook abi call num rv a _ (hooks_del dpost num));
        [exact He | reflexivity | by apply hooks_get_del_eq].
    + apply (post_no_hook abi call num rv a _ dpost);
        [exact He | exact Hpost | exact Hg].
Qed.

(** X17: what a post-dispatch leaves in the interpreter when the hook
    returns an [int]: if the value fits a [long long] the state is the
    one the callback left; if it does not, the dispatch returns -1 and
    the OverflowError of the failed conversion stays pending, since the
    error return of [PyLong_AsLongLong] is not examined. *)
Theorem post_hook_int_state num r a w hooks cb v z w1 :
  g_tinyhook_enabled w = true ->
  g_post_syscall_hooks w = Some hooks ->
  hooks_get hooks num = Some cb ->
  call cb (PyLong num :: (PyLong <$> r :: args_list a)) w = (Some v, w1) ->
  long_value v = Some z ->
  tinyhook_post_syscall abi call num r a w
  = if CInt.in_range CInt.LLONG_MIN CInt.LLONG_MAX z
    then (to_abi_long abi z, w1)
    else (-1, PyErr_SetString PyExc_OverflowError
                "Python int too large to convert to C long long" w1).
Proof.
  intros He Hp Hg Hc Hz. unfold tinyhook_post_syscall.
  rewrite He, Hp. cbn [PyLong_FromLong PyDict_GetItem long_value].
  rewrite Hg. unfold PyObject_CallFunction. rewrite Hc.
  rewrite PyLong_Check_value, Hz, bool_decide_true by eauto.
  unfold PyLong_AsLongLong. rewrite Hz.
  destruct (CInt.in_range _ _ z); [reflexivity |].
  by destruct abi.
Qed.

End DispatchAndRegistry.

(** On the demo host: the pre-hook of syscall 102 returns the [int] 7. *)
Lemma pre_hook_non_dict_fires_with_defaults_witness :
  tinyhook_pre_syscall ABI64 Demo.call 102 Demo.sys_args Demo.stale Demo.running
  = (true, mkResult TINYHOOK_CONTINUE [1; 2; 3; 4; 5; 6; 7; 8] 0, Demo.running).
Proof.
  apply (pre_hook_non_dict_fires_with_defaults ABI64 Demo.call 102 Demo.sys_args
           Demo.stale Demo.running Demo.hooks (PyFunction 2) (PyLong 7)
           Demo.running); reflexivity.
Defined.

(** On the demo host: syscall 100, whose pre-hook returns action 1. *)
Lemma pre_hook_action_decoding_witness :
  action (tinyhook_pre_syscall ABI64 Demo.call 100 Demo.sys_args Demo.stale
            Demo.running).1.2
  = TINYHOOK_SKIP.
Proof.
  apply (pre_hook_action_decoding ABI64 Demo.call 100 Demo.sys_args Demo.stale
           Demo.running Demo.hooks (PyFunction 0)
           [(Demo.key "action", PyLong 1); (Demo.key "ret", PyLong 42)]
           Demo.running); reflexivity.
Defined.

(** On the demo host: syscall 100, whose pre-hook returns ret 42. *)
Lemma pre_hook_ret_decoding_witness :
  ret (tinyhook_pre_syscall ABI32 Demo.call 100 Demo.sys_args Demo.stale
         Demo.running).1.2
  = 42.
Proof.
  apply (pre_hook_ret_decoding ABI32 Demo.call 100 Demo.sys_args Demo.stale
           Demo.running Demo.hooks (PyFunction 0)
           [(Demo.key "action", PyLong 1); (Demo.key "ret", PyLong 42)]
           Demo.running); reflexivity.
Defined.

(** On the demo host: syscall 103, whose pre-hook returns a mixed tuple. *)
Lemma pre_result_has_eight_args_witness :
  length (args (tinyhook_pre_syscall ABI64 Demo.call 103 Demo.sys_args Demo.stale
                  Demo.running).1.2) = 8%nat.
Proof.
  apply (pre_result_has_eight_args ABI64 Demo.call 103 Demo.sys_args Demo.stale
           Demo.running Demo.hooks); reflexivity.
Defined.

(** On the demo host: syscall 100 returns the value of the module's SKIP. *)
Lemma module_constants_select_action_witness :
  module_getattr PyInit_tinyhook "SKIP" = Some (PyLong 1)
  /\ action (tinyhook_pre_syscall ABI64 Demo.call 100 Demo.sys_args Demo.stale
               Demo.running).1.2
     = TINYHOOK_SKIP.
Proof.
  split; [reflexivity |].
  apply (proj1 (module_constants_select_action ABI64 Demo.call 100 Demo.sys_args
                  Demo.stale Demo.running Demo.hooks (PyFunction 0)
                  [(Demo.key "action", PyLong 1); (Demo.key "ret", PyLong 42)]
                  Demo.running eq_refl eq_refl eq_refl eq_refl)).
  reflexivity.
Defined.


(** On the demo host: syscall 100 after both of its hooks are removed. *)
Lemma unregistered_hooks_are_not_dispatched_witness :
  (tinyhook_pre_syscall ABI64 Demo.call 100 Demo.sys_args Demo.stale
     (py_unregister_pre_hook [PyLong 100] Demo.running).2).1.1 = false
  /\ (tinyhook_post_syscall ABI64 Demo.call 100 (-38) Demo.sys_args
        (py_unregister_post_hook [PyLong 100] Demo.running).2).1 = -38.
Proof.
  destruct (unregistered_hooks_are_not_dispatched ABI64 Demo.call 100
              Demo.sys_args Demo.stale (-38) Demo.running Demo.hooks Demo.hooks)
    as [H1 H2]; try reflexivity.
  - apply (bool_decide_unpack _). vm_compute. exact I.
  - apply (bool_decide_unpack _). vm_compute. exact I.
  - vm_compute. split; discriminate.
  - rewrite H1, H2. split; reflexivity.
Defined.

(** On the demo host: the post-hook of syscall 104 returns 2^63. *)
Lemma post_hook_int_state_witness :
  tinyhook_post_syscall ABI64 Demo.call 104 (-38) Demo.sys_args Demo.running
  = (-1, PyErr_SetString PyExc_OverflowError
           "Python int too large to convert to C long long" Demo.running).
Proof.
  apply (post_hook_int_state ABI64 Demo.call 104 (-38) Demo.sys_args Demo.running
           Demo.hooks (PyFunction 4) (PyLong (2 ^ 63)) (2 ^ 63) Demo.running);
    reflexivity.
Defined.

(** ** Lifecycle: outcomes of init, shutdown, and the build without Python *)

(** X18: whenever [tinyhook_init] returns, the enabled flag tells its
    two results apart: started in a state that is not enabled, for
    every host and script, if the process has not ended inside the call
    then it returned 0 with the subsystem enabled or -1 with the
    subsystem not enabled. *)
Theorem init_enabled_iff_success run dirname env path w :
  g_tinyhook_enabled w = false ->
  let out := tinyhook_init run dirname env path w in
  exit_status out.2 = None ->
  (out.1 = 0 /\ tinyhook_enabled out.2 = true)
  \/ (out.1 = -1 /\ tinyhook_enabled out.2 = false).
Proof.
  intros Hd. cbn zeta. unfold tinyhook_init, tinyhook_enabled.
  destruct (env_inittab env =? -1);
    [intros _; right; split; [reflexivity | exact Hd] |].
  destruct (negb (Py_IsInitialized (Py_Initialize env w))) eqn:Hi.
  { intros _. right. split; [reflexivity |]. unfold Py_Initialize.
    by destruct (env_py_starts env). }
  destruct (PyDict_New (env_pre_dict env) (Py_Initialize env w)) as [pre w1].
  destruct (PyDict_New (env_post_dict env) (set_pre_hooks pre w1)) as [post w2].
  destruct (_ || _);
    [intros _; right; split; [reflexivity | apply shutdown_disables] |].
  destruct (PyImport_ImportModule env "tinyhook" (set_post_hooks post w2))
    as [m w3].
  destruct (g_module (set_module m w3)).
  2:{ match goal with |- context [system_exit_code ?x] =>
        destruct (system_exit_code x) as [code|] eqn:Hx end; cbn [fst snd].
      - rewrite (PyErr_Print_exits _ code Hx), Py_Exit_status. discriminate.
      - intros _. right. split; [reflexivity | apply shutdown_disables]. }
  destruct (env_fopen env path) as [err|fp];
    [intros _; right; split; [reflexivity | apply shutdown_disables] |].
  match goal with |- context [run fp ?x] => destruct (run fp x) as [[v|] w4] end.
  - intros _. left. split; reflexivity.
  - match goal with |- context [system_exit_code ?x] =>
      destruct (system_exit_code x) as [code|] eqn:Hx end; cbn [fst snd].
    + rewrite (PyErr_Print_exits _ code Hx), Py_Exit_status. discriminate.
    + intros _. right. split; [reflexivity | apply shutdown_disables].
Qed.

(** On the demo host, successful path. *)
Lemma init_enabled_iff_success_witness :
  let out := tinyhook_init Demo.run_file Demo.dirname Demo.env_ok "hooks.py"
               (initial_world Demo.mem) in
  (out.1 = 0 /\ tinyhook_enabled out.2 = true)
  \/ (out.1 = -1 /\ tinyhook_enabled out.2 = false).
Proof.
  apply (init_enabled_iff_success Demo.run_file Demo.dirname Demo.env_ok
           "hooks.py" (initial_world Demo.mem) eq_refl eq_refl).
Defined.





(** X21: the build without Python support is the Python build that
    was never enabled: in every state that is not enabled, the four
    entry points used around a syscall and at exit give the results of
    the stubs; and the stub of init always fails, with one line on
    standard error and nothing else changed. *)
Theorem no_python_build_is_the_disabled_state abi call num a r rv path w :
  g_tinyhook_enabled w = false ->
  tinyhook_pre_syscall abi call num a r w
  = NoPython.tinyhook_pre_syscall num a r w
  /\ tinyhook_post_syscall abi call num rv a w
     = NoPython.tinyhook_post_syscall num rv a w
  /\ tinyhook_enabled w = NoPython.tinyhook_enabled w
  /\ tinyhook_shutdown w = NoPython.tinyhook_shutdown w
  /\ (NoPython.tinyhook_init path w).1 = -1
  /\ NoPython.tinyhook_enabled (NoPython.tinyhook_init path w).2 = false
  /\ (NoPython.tinyhook_init path w).2
     = fprintf_stderr "tinyhook: not compiled with Python support" w.
Proof.
  intros Hd.
  split; [apply pre_disabled; by left |].
  split; [apply post_disabled; by left |].
  split; [exact Hd |].
  split; [by apply shutdown_when_disabled |].
  split; [reflexivity |]. split; reflexivity.
Qed.

(** On the demo host: the initial state. *)
Lemma no_python_build_is_the_disabled_state_witness :
  tinyhook_pre_syscall ABI64 Demo.call 100 Demo.sys_args Demo.stale
    (initial_world Demo.mem)
  = NoPython.tinyhook_pre_syscall 100 Demo.sys_args Demo.stale
      (initial_world Demo.mem).
Proof.
  apply (no_python_build_is_the_disabled_state ABI64 Demo.call 100 Demo.sys_args
           Demo.stale 0 "hooks.py" (initial_world Demo.mem) eq_refl).
Defined.

(** On the demo host: a script that ends with [sys.exit(2)] ends the
    process with status 2 inside [tinyhook_init]; both tables and the
    module were acquired, and the interpreter is finalized by the exit
    itself. *)
Lemma init_script_system_exit :
  let out := tinyhook_init Demo.run_exit Demo.dirname Demo.env_ok "hooks.py"
               (initial_world Demo.mem) in
  exit_status out.2 = Some 2
  /\ py_initialized out.2 = false
  /\ released out.2 = [RInterpreter]
  /\ stderr out.2 = ["tinyhook: error executing script 'hooks.py':"].
Proof. cbn zeta. repeat split; reflexivity. Qed.
